(** * File upload server (file_server/server.py): model and properties

    The Flask application of [file_server/server.py] accepts files over
    HTTP, checks their extension, derives a time-stamped name with
    werkzeug's [secure_filename] and [os.path.splitext], writes the file
    below [UPLOAD_FOLDER] and lists the stored files.

    Python [str] values are modelled as lists of 8-bit characters, each
    character standing for the code point of the same number (U+0000 to
    U+00FF).  On that range the standard-library functions used by the
    server ([str.lower], [str.split], [unicodedata.normalize], ...) are
    modelled exactly; code points above U+00FF are outside the model. *)

From Stdlib Require Import List Ascii String ZArith Lia Bool Permutation.
From stdpp Require Import gmap strings.
Import ListNotations.

Local Open Scope Z_scope.

(** Python strings and bytes. *)
Definition str := list ascii.
Definition bytes := list Byte.byte.

(** String literals of the source are written [s "..."]. *)
Definition s (lit : string) : str := list_ascii_of_string lit.

Definition ord (c : ascii) : Z := Z.of_N (N_of_ascii c).
Definition chr (n : Z) : ascii := ascii_of_N (Z.to_N n).

Fixpoint str_eqb (a b : str) : bool :=
  match a, b with
  | [], [] => true
  | x :: a', y :: b' => Ascii.eqb x y && str_eqb a' b'
  | _, _ => false
  end.

(** ** Built-in [str] methods *)
Module Py.

(** [c in text] for a one-character needle. *)
Definition contains (c : ascii) (text : str) : bool :=
  existsb (Ascii.eqb c) text.

(** [x in collection] for a set of strings. *)
Definition mem (x : str) (collection : list str) : bool :=
  existsb (str_eqb x) collection.

(** Cut [text] at its last [sep]: the part before and the part after. *)
Fixpoint rcut (sep : ascii) (text : str) : option (str * str) :=
  match text with
  | [] => None
  | c :: rest =>
      match rcut sep rest with
      | Some (before, after) => Some (c :: before, after)
      | None => if Ascii.eqb c sep then Some ([], rest) else None
      end
  end.

(** [text.rsplit(sep, 1)]: at most one split, made at the last [sep]. *)
Definition rsplit1 (sep : ascii) (text : str) : list str :=
  match rcut sep text with
  | Some (before, after) => [before; after]
  | None => [text]
  end.

(** [c.lower()] on U+0000..U+00FF: A-Z, and the Latin-1 capitals
    U+00C0..U+00DE except the multiplication sign U+00D7, move up by 32. *)
Definition lower_char (c : ascii) : ascii :=
  let n := ord c in
  if ((65 <=? n) && (n <=? 90)) || ((192 <=? n) && (n <=? 222) && negb (n =? 215))
  then chr (n + 32) else c.

Definition lower (text : str) : str := map lower_char text.

(** [c.isspace()] on U+0000..U+00FF. *)
Definition isspace (c : ascii) : bool :=
  let n := ord c in
  ((9 <=? n) && (n <=? 13)) || ((28 <=? n) && (n <=? 32)) || (n =? 133) || (n =? 160).

(** [text.split()]: the maximal runs of non-whitespace characters.
    [word] is the run being read, in reverse. *)
Fixpoint split_ws_aux (word : str) (text : str) : list str :=
  match text with
  | [] => match word with [] => [] | _ => [rev word] end
  | c :: rest =>
      if isspace c
      then match word with
           | [] => split_ws_aux [] rest
           | _ => rev word :: split_ws_aux [] rest
           end
      else split_ws_aux (c :: word) rest
  end.

Definition split_ws (text : str) : list str := split_ws_aux [] text.

(** [sep.join(parts)]. *)
Fixpoint join (sep : str) (parts : list str) : str :=
  match parts with
  | [] => []
  | [p] => p
  | p :: ps => p ++ sep ++ join sep ps
  end.

(** [text.replace(old, new)] for one-character [old] and [new]. *)
Definition replace (old new : ascii) (text : str) : str :=
  map (fun c => if Ascii.eqb c old then new else c) text.

(** [text.lstrip(chars)], [text.rstrip(chars)] and [text.strip(chars)]. *)
Fixpoint lstrip (chars : str) (text : str) : str :=
  match text with
  | [] => []
  | c :: rest => if contains c chars then lstrip chars rest else text
  end.

Definition rstrip (chars : str) (text : str) : str :=
  rev (lstrip chars (rev text)).

Definition strip (chars : str) (text : str) : str :=
  rstrip chars (lstrip chars text).

(** [text.rfind(c)]: the index of the last [c], or -1. *)
Definition rfind (c : ascii) (text : str) : Z :=
  match rcut c text with
  | Some (before, _) => Z.of_nat (length before)
  | None => -1
  end.

(** The slice [text[i:j]] for [0 <= i]. *)
Definition slice (text : str) (i j : Z) : str :=
  firstn (Z.to_nat (j - i)) (skipn (Z.to_nat i) text).

End Py.


(** ** [unicodedata] and the [ascii] codec *)
Module Unicodedata.

(** The compatibility decomposition of one character, as code points.
    Characters below U+0080 and the Latin-1 characters not listed have
    none.  In [normalize] the decompositions of U+0080..U+00FF carry at
    most one combining mark each, so no reordering of marks takes place
    and the normal form of a string is the concatenation of the
    decompositions of its characters. *)
Definition decomposition (c : ascii) : list Z :=
  match ord c with
  | 160 => [32] | 168 => [32; 776] | 170 => [97] | 175 => [32; 772]
  | 178 => [50] | 179 => [51] | 180 => [32; 769] | 181 => [956]
  | 184 => [32; 807] | 185 => [49] | 186 => [111]
  | 188 => [49; 8260; 52] | 189 => [49; 8260; 50] | 190 => [51; 8260; 52]
  | 192 => [65; 768] | 193 => [65; 769] | 194 => [65; 770] | 195 => [65; 771]
  | 196 => [65; 776] | 197 => [65; 778] | 199 => [67; 807]
  | 200 => [69; 768] | 201 => [69; 769] | 202 => [69; 770] | 203 => [69; 776]
  | 204 => [73; 768] | 205 => [73; 769] | 206 => [73; 770] | 207 => [73; 776]
  | 209 => [78; 771]
  | 210 => [79; 768] | 211 => [79; 769] | 212 => [79; 770] | 213 => [79; 771]
  | 214 => [79; 776]
  | 217 => [85; 768] | 218 => [85; 769] | 219 => [85; 770] | 220 => [85; 776]
  | 221 => [89; 769]
  | 224 => [97; 768] | 225 => [97; 769] | 226 => [97; 770] | 227 => [97; 771]
  | 228 => [97; 776] | 229 => [97; 778] | 231 => [99; 807]
  | 232 => [101; 768] | 233 => [101; 769] | 234 => [101; 770] | 235 => [101; 776]
  | 236 => [105; 768] | 237 => [105; 769] | 238 => [105; 770] | 239 => [105; 776]
  | 241 => [110; 771]
  | 242 => [111; 768] | 243 => [111; 769] | 244 => [111; 770] | 245 => [111; 771]
  | 246 => [111; 776]
  | 249 => [117; 768] | 250 => [117; 769] | 251 => [117; 770] | 252 => [117; 776]
  | 253 => [121; 769] | 255 => [121; 776]
  | n => [n]
  end.

(** [unicodedata.normalize("NFKD", text)], as code points. *)
Definition normalize_NFKD (text : str) : list Z := flat_map decomposition text.

(** [text.encode("ascii", "ignore").decode("ascii")]. *)
Definition encode_ascii_ignore (text : list Z) : str :=
  map chr (List.filter (fun n => n <? 128) text).

End Unicodedata.

(** ** [werkzeug.utils] *)
Module Werkzeug.

(** The class [[A-Za-z0-9_.-]]; [_filename_ascii_strip_re] is its
    complement. *)
Definition filename_ascii_keep (c : ascii) : bool :=
  let n := ord c in
  ((65 <=? n) && (n <=? 90)) || ((97 <=? n) && (n <=? 122)) ||
  ((48 <=? n) && (n <=? 57)) || (n =? 95) || (n =? 46) || (n =? 45).

(** [_filename_ascii_strip_re.sub("", text)]. *)
Definition filename_ascii_strip_re_sub (text : str) : str :=
  List.filter filename_ascii_keep text.

(** [secure_filename] on a POSIX host: [os.sep] is ["/"], [os.path.altsep]
    is [None] and the branch for Windows device names is not taken. *)
Definition secure_filename (filename : str) : str :=
  let filename := Unicodedata.normalize_NFKD filename in
  let filename := Unicodedata.encode_ascii_ignore filename in
  let filename := Py.replace "/" " " filename in
  Py.strip (s "._")
    (filename_ascii_strip_re_sub (Py.join (s "_") (Py.split_ws filename))).

End Werkzeug.

(** ** [os.path] (posixpath) *)
Module Posixpath.

Definition startswith (c : ascii) (text : str) : bool :=
  match text with x :: _ => Ascii.eqb x c | [] => false end.

Definition endswith (c : ascii) (text : str) : bool :=
  startswith c (rev text).

(** [os.path.join(a, b)]. *)
Definition join (a b : str) : str :=
  if startswith "/" b then b
  else if str_eqb a [] || endswith "/" a then a ++ b
  else a ++ s "/" ++ b.

(** The loop of [genericpath._splitext] that skips leading dots:
    [steps] is [dotIndex - filenameIndex]. *)
Fixpoint splitext_scan (p : str) (dotIndex filenameIndex : Z) (steps : nat)
  : str * str :=
  match steps with
  | O => (p, [])
  | S steps' =>
      if negb (str_eqb (Py.slice p filenameIndex (filenameIndex + 1)) (s "."))
      then (firstn (Z.to_nat dotIndex) p, skipn (Z.to_nat dotIndex) p)
      else splitext_scan p dotIndex (filenameIndex + 1) steps'
  end.

(** [os.path.splitext(p)]. *)
Definition splitext (p : str) : str * str :=
  let sepIndex := Py.rfind "/" p in
  let dotIndex := Py.rfind "." p in
  if sepIndex <? dotIndex
  then splitext_scan p dotIndex (sepIndex + 1) (Z.to_nat (dotIndex - (sepIndex + 1)))
  else (p, []).

End Posixpath.

(** ** [datetime] *)
Record datetime := {
  year : Z; month : Z; day : Z;
  hour : Z; minute : Z; second : Z; microsecond : Z
}.

Module Datetime.

Definition digit (n : Z) : ascii := chr (48 + n mod 10).

(** A field printed on two digits ([%m], [%d], [%H], [%M], [%S]). *)
Definition two_digits (n : Z) : str := [digit (n / 10); digit n].

Fixpoint decimal_aux (fuel : nat) (n : Z) : str :=
  match fuel with
  | O => []
  | S fuel' =>
      if n <? 10 then [digit n] else decimal_aux fuel' (n / 10) ++ [digit n]
  end.

(** A number printed in decimal without padding ([%Y] of the C library;
    interpreters that pad the year to four digits agree from year 1000 on). *)
Definition decimal (n : Z) : str := decimal_aux (S (Z.to_nat (Z.log2 n))) n.

Definition directive (d : ascii) (dt : datetime) : str :=
  if Ascii.eqb d "Y" then decimal (year dt)
  else if Ascii.eqb d "m" then two_digits (month dt)
  else if Ascii.eqb d "d" then two_digits (day dt)
  else if Ascii.eqb d "H" then two_digits (hour dt)
  else if Ascii.eqb d "M" then two_digits (minute dt)
  else if Ascii.eqb d "S" then two_digits (second dt)
  else ["%"%char; d].

(** [dt.strftime(format)] for the directives the server uses. *)
Fixpoint strftime (dt : datetime) (format : str) : str :=
  match format with
  | [] => []
  | c :: rest =>
      if Ascii.eqb c "%"
      then match rest with
           | d :: rest' => directive d dt ++ strftime dt rest'
           | [] => [c]
           end
      else c :: strftime dt rest
  end.

(** The values a [datetime] object can hold. *)
Definition valid (dt : datetime) : Prop :=
  1 <= year dt <= 9999 /\ 1 <= month dt <= 12 /\ 1 <= day dt <= 31 /\
  0 <= hour dt <= 23 /\ 0 <= minute dt <= 59 /\ 0 <= second dt <= 59 /\
  0 <= microsecond dt <= 999999.

End Datetime.

(** ** JSON bodies and HTTP responses *)
#[warnings="-register-all"] Inductive json :=
| JBool (b : bool)
| JInt (n : Z)
| JStr (text : str)
| JList (items : list json)
| JObject (fields : list (string * json)).

(** A view function returns [jsonify(body), status]; the framework may
    answer by itself with an HTTP error ([HTTPException]). *)
Inductive response :=
| Jsonify (body : json) (status : Z)
| HTTPException (code : Z).

(** ** The file system below the working directory *)
Inductive node :=
| RegularFile (data : bytes) (mtime : datetime)
| Directory (st_size : Z)
| Special (st_size : Z).

(** The entries of the upload directory by name, and the paths written
    anywhere else. *)
Record filesystem := {
  entries : gmap str node;
  elsewhere : list str
}.

(** What the operating system may do to a write or a stat: the message
    of the exception raised, if any. *)
Inductive save_fault :=
| OpenFails (e : str)
| WriteFails (written : nat) (e : str).

Record faults := {
  save_fault_of : option save_fault;
  getsize_fault : option str
}.

Definition no_faults : faults :=
  {| save_fault_of := None; getsize_fault := None |}.

(** The result of a call that may raise. *)
Inductive raises (A : Type) :=
| Return (a : A)
| Raise (e : str).
Arguments Return {A} a.
Arguments Raise {A} e.

(** ** Uploaded files and requests *)
Record FileStorage := {
  filename : str;
  stream : bytes
}.

(** [content_length] is the size the client declares for the request;
    [files] is the multi-dict [request.files]. *)
Record Request := {
  content_length : Z;
  files : list (str * FileStorage)
}.

Fixpoint multidict_get {A} (key : str) (d : list (str * A)) : option A :=
  match d with
  | [] => None
  | (k, v) :: rest => if str_eqb k key then Some v else multidict_get key rest
  end.

(** ** server.py: configuration *)
Definition UPLOAD_FOLDER : str := s "uploads".
Definition ALLOWED_EXTENSIONS : list str :=
  [s "txt"; s "pdf"; s "png"; s "jpg"; s "jpeg"; s "gif"; s "doc"; s "docx"; s "zip"].


(** ** Paths and files, as the operating system treats them *)
Module Fs.

(** [path.split("/")]; [comp] is the component being read, in reverse. *)
Fixpoint components_aux (comp : str) (path : str) : list str :=
  match path with
  | [] => [rev comp]
  | c :: rest =>
      if Ascii.eqb c "/" then rev comp :: components_aux [] rest
      else components_aux (c :: comp) rest
  end.

Definition components (path : str) : list str := components_aux [] path.

(** Walk the components from the working directory; [stack] is the
    directory reached, innermost first.  [None]: the walk climbs above
    the working directory. *)
Fixpoint walk (stack : list str) (comps : list str) : option (list str) :=
  match comps with
  | [] => Some (rev stack)
  | comp :: rest =>
      if str_eqb comp [] || str_eqb comp (s ".") then walk stack rest
      else if str_eqb comp (s "..")
      then match stack with
           | [] => None
           | _ :: stack' => walk stack' rest
           end
      else walk (comp :: stack) rest
  end.

(** Where a path leads, as components below the working directory;
    [None] for an absolute path or one that leaves the working directory. *)
Definition resolve (path : str) : option (list str) :=
  if Posixpath.startswith "/" path then None else walk [] (components path).

(** The name under which a path is a direct entry of the upload
    directory, if it is one. *)
Definition entry_of (path : str) : option str :=
  match resolve path with
  | Some [dir; name] => if str_eqb dir UPLOAD_FOLDER then Some name else None
  | _ => None
  end.

(** [str(e)] for an [OSError] about [path]. *)
Definition errno (code : Z) (text : string) (path : str) : str :=
  s "[Errno " ++ Datetime.decimal code ++ s "] " ++ s text ++ s ": '" ++ path ++ s "'".

(** Create or truncate the file at [path] and fill it with [data]. *)
Definition write (fs : filesystem) (path : str) (data : bytes) (now : datetime)
  : filesystem :=
  match entry_of path with
  | Some name =>
      {| entries := <[name := RegularFile data now]> (entries fs);
         elsewhere := elsewhere fs |}
  | None => {| entries := entries fs; elsewhere := path :: elsewhere fs |}
  end.

Definition is_directory (fs : filesystem) (path : str) : bool :=
  match entry_of path with
  | Some name =>
      match entries fs !! name with Some (Directory _) => true | _ => false end
  | None => false
  end.

(** [file.save(dst)]: open [dst] for writing, copy the stream, close. *)
Definition save (file : FileStorage) (dst : str) (now : datetime)
    (fault : option save_fault) (fs : filesystem) : filesystem * raises unit :=
  if is_directory fs dst then (fs, Raise (errno 21 "Is a directory" dst))
  else match fault with
       | Some (OpenFails e) => (fs, Raise e)
       | Some (WriteFails written e) =>
           (write fs dst (firstn written (stream file)) now, Raise e)
       | None => (write fs dst (stream file) now, Return tt)
       end.

(** [os.path.getsize(path)] for a path into the upload directory. *)
Definition getsize (fs : filesystem) (path : str) (fault : option str) : raises Z :=
  match fault with
  | Some e => Raise e
  | None =>
      match entry_of path with
      | Some name =>
          match entries fs !! name with
          | Some (RegularFile data _) => Return (Z.of_nat (length data))
          | Some (Directory sz) | Some (Special sz) => Return sz
          | None => Raise (errno 2 "No such file or directory" path)
          end
      | None => Raise (errno 2 "No such file or directory" path)
      end
  end.

(** [os.path.isfile(path)]. *)
Definition isfile (fs : filesystem) (path : str) : bool :=
  match entry_of path with
  | Some name =>
      match entries fs !! name with Some (RegularFile _ _) => true | _ => false end
  | None => false
  end.

(** [os.path.getmtime(path)], already converted by [datetime.fromtimestamp]. *)
Definition getmtime (fs : filesystem) (path : str) : raises datetime :=
  match entry_of path with
  | Some name =>
      match entries fs !! name with
      | Some (RegularFile _ mtime) => Return mtime
      | _ => Raise (errno 2 "No such file or directory" path)
      end
  | None => Raise (errno 2 "No such file or directory" path)
  end.

End Fs.

(** ** server.py: the view functions *)

(** *** allowed_file *)
Definition allowed_file (filename : str) : bool :=
  Py.contains "." filename &&
  match nth_error (Py.rsplit1 "." filename) 1 with
  | Some ext => Py.mem (Py.lower ext) ALLOWED_EXTENSIONS
  | None => false
  end.

(** *** upload_file *)
Definition error_response (message : str) (status : Z) : response :=
  Jsonify (JObject [("error"%string, JStr message)]) status.

(** Lines 133-136: the name under which the file is stored. *)
Definition unique_filename_of (original : str) (now : datetime) : str :=
  let filename := Werkzeug.secure_filename original in
  let timestamp := Datetime.strftime now (s "%Y%m%d_%H%M%S") in
  let '(name, ext) := Posixpath.splitext filename in
  name ++ s "_" ++ timestamp ++ ext.

Definition upload_file (request : Request) (now : datetime) (io : faults)
    (fs : filesystem) : filesystem * response :=
  match multidict_get (s "file") (files request) with
  | None => (fs, error_response (s "No file part in the request") 400)
  | Some file =>
      if str_eqb (filename file) [] then
        (fs, error_response (s "No file selected") 400)
      else if negb (allowed_file (filename file)) then
        (fs, error_response (s "File type not allowed") 400)
      else
        let filename := Werkzeug.secure_filename (filename file) in
        let timestamp := Datetime.strftime now (s "%Y%m%d_%H%M%S") in
        let '(name, ext) := Posixpath.splitext filename in
        let unique_filename := name ++ s "_" ++ timestamp ++ ext in
        let filepath := Posixpath.join UPLOAD_FOLDER unique_filename in
        match Fs.save file filepath now (save_fault_of io) fs with
        | (fs', Raise e) =>
            (fs', error_response (s "Failed to save file: " ++ e) 500)
        | (fs', Return _) =>
            match Fs.getsize fs' filepath (getsize_fault io) with
            | Raise e => (fs', error_response (s "Failed to save file: " ++ e) 500)
            | Return file_size =>
                (fs', Jsonify (JObject [
                        ("success"%string, JBool true);
                        ("message"%string, JStr (s "File uploaded successfully"));
                        ("filename"%string, JStr unique_filename);
                        ("size"%string, JInt file_size);
                        ("timestamp"%string, JStr timestamp)]) 200)
            end
        end
  end.

(** *** Reading [request.files]

    Line 121 reads [request.files], and that makes the framework parse
    the body of the request.  The parser raises
    [RequestEntityTooLarge] when the declared length of the request
    exceeds [app.config['MAX_CONTENT_LENGTH']], and also when the body
    goes beyond a limit of the parser itself, which server.py leaves at
    the framework's default: more than [MAX_FORM_PARTS] parts, or a form
    field larger than the parser keeps in memory.  The exception leaves
    the view and the framework answers with status 413. *)

(** What the body holds besides the files, as far as the parser's own
    limits go: the number of parts that are not files, and whether one
    of them is larger than the parser allows. *)
Record form_fields := {
  field_count : Z;
  field_too_large : bool
}.



Definition parts (request : Request) (form : form_fields) : Z :=
  field_count form + Z.of_nat (length (files request)).



(** *** list_files *)
Fixpoint list_files_loop (fs : filesystem) (listing : list str) : raises (list json) :=
  match listing with
  | [] => Return []
  | filename :: rest =>
      let filepath := Posixpath.join UPLOAD_FOLDER filename in
      if Fs.isfile fs filepath then
        match Fs.getsize fs filepath None, Fs.getmtime fs filepath with
        | Return sz, Return mtime =>
            match list_files_loop fs rest with
            | Return files =>
                Return (JObject [
                          ("name"%string, JStr filename);
                          ("size"%string, JInt sz);
                          ("modified"%string,
                           JStr (Datetime.strftime mtime (s "%Y-%m-%d %H:%M:%S")))]
                        :: files)
            | Raise e => Raise e
            end
        | Raise e, _ | _, Raise e => Raise e
        end
      else list_files_loop fs rest
  end.

(** [listing] is what [os.listdir] returns, in the order it chooses;
    [fault] is the exception it raises, if any. *)
Definition list_files (listing : list str) (fault : option str) (fs : filesystem)
  : filesystem * response :=
  match fault with
  | Some e => (fs, error_response (s "Failed to list files: " ++ e) 500)
  | None =>
      match list_files_loop fs listing with
      | Return files => (fs, Jsonify (JObject [("files"%string, JList files)]) 200)
      | Raise e => (fs, error_response (s "Failed to list files: " ++ e) 500)
      end
  end.

(** ** The two halves of [upload_file] *)

(** Lines 121-130: the checks made before anything is written. *)
Inductive verdict :=
| Accept (file : FileStorage)
| Reject (r : response).

Definition validate (request : Request) : verdict :=
  match multidict_get (s "file") (files request) with
  | None => Reject (error_response (s "No file part in the request") 400)
  | Some file =>
      if str_eqb (filename file) [] then
        Reject (error_response (s "No file selected") 400)
      else if negb (allowed_file (filename file)) then
        Reject (error_response (s "File type not allowed") 400)
      else Accept file
  end.

(** Lines 133-152: naming and writing an accepted file. *)
Definition store (file : FileStorage) (now : datetime) (io : faults)
    (fs : filesystem) : filesystem * response :=
  let unique_filename := unique_filename_of (filename file) now in
  let timestamp := Datetime.strftime now (s "%Y%m%d_%H%M%S") in
  let filepath := Posixpath.join UPLOAD_FOLDER unique_filename in
  match Fs.save file filepath now (save_fault_of io) fs with
  | (fs', Raise e) => (fs', error_response (s "Failed to save file: " ++ e) 500)
  | (fs', Return _) =>
      match Fs.getsize fs' filepath (getsize_fault io) with
      | Raise e => (fs', error_response (s "Failed to save file: " ++ e) 500)
      | Return file_size =>
          (fs', Jsonify (JObject [
                  ("success"%string, JBool true);
                  ("message"%string, JStr (s "File uploaded successfully"));
                  ("filename"%string, JStr unique_filename);
                  ("size"%string, JInt file_size);
                  ("timestamp"%string, JStr timestamp)]) 200)
      end
  end.

(** The exception raised inside the [try] block of [upload_file], if any. *)
Definition raised_in_store (file : FileStorage) (now : datetime) (io : faults)
    (fs : filesystem) : option str :=
  let filepath := Posixpath.join UPLOAD_FOLDER (unique_filename_of (filename file) now) in
  match Fs.save file filepath now (save_fault_of io) fs with
  | (_, Raise e) => Some e
  | (fs', Return _) =>
      match Fs.getsize fs' filepath (getsize_fault io) with
      | Raise e => Some e
      | Return _ => None
      end
  end.

(** ** Reading responses *)

Definition status_of (r : response) : Z :=
  match r with Jsonify _ status => status | HTTPException code => code end.

Fixpoint assoc (key : string) (fields : list (string * json)) : option json :=
  match fields with
  | [] => None
  | (k, v) :: rest => if String.eqb k key then Some v else assoc key rest
  end.

Definition field (key : string) (r : response) : option json :=
  match r with
  | Jsonify (JObject fields) _ => assoc key fields
  | _ => None
  end.

(** The response announces a stored file. *)
Definition is_success (r : response) : bool :=
  (status_of r =? 200) &&
  match field "success" r with Some (JBool true) => true | _ => false end.

Fixpoint strip_prefix (prefix text : str) : option str :=
  match prefix, text with
  | [], _ => Some text
  | p :: prefix', c :: text' =>
      if Ascii.eqb p c then strip_prefix prefix' text' else None
  | _ :: _, [] => None
  end.

(** The kinds of failure a client can tell apart. *)
Inductive reason :=
| NoFilename
| DisallowedExtension
| TooLarge
| WriteError (cause : str)
| ListError (cause : str).

(** The kind of failure a response reports: read off its status and its
    [error] message. *)
Definition reason_of (r : response) : option reason :=
  match r with
  | HTTPException code => if code =? 413 then Some TooLarge else None
  | Jsonify _ status =>
      match field "error" r with
      | Some (JStr message) =>
          if status =? 400 then
            if str_eqb message (s "No file part in the request")
               || str_eqb message (s "No file selected")
            then Some NoFilename
            else if str_eqb message (s "File type not allowed")
            then Some DisallowedExtension
            else None
          else if status =? 500 then
            match strip_prefix (s "Failed to save file: ") message with
            | Some cause => Some (WriteError cause)
            | None =>
                match strip_prefix (s "Failed to list files: ") message with
                | Some cause => Some (ListError cause)
                | None => None
                end
            end
          else None
      | _ => None
      end
  end.

(** The reason with which [validate] turns a request down. *)
Definition rejection (request : Request) : option reason :=
  match validate request with
  | Reject r => reason_of r
  | Accept _ => None
  end.

(** The (name, size) pairs of a listing. *)
Definition name_size (entry : json) : option (str * Z) :=
  match entry with
  | JObject fields =>
      match assoc "name" fields, assoc "size" fields with
      | Some (JStr name), Some (JInt sz) => Some (name, sz)
      | _, _ => None
      end
  | _ => None
  end.

Definition listed_pairs (r : response) : list (str * Z) :=
  match field "files" r with
  | Some (JList items) => omap name_size items
  | _ => []
  end.

(** [listing] is a possible result of [os.listdir(UPLOAD_FOLDER)]. *)
Definition listdir_result (fs : filesystem) (listing : list str) : Prop :=
  Permutation listing (map fst (map_to_list (entries fs))).

(** The values [datetime.now()] returns: the clock does not run before
    1970. *)
Definition clock_value (dt : datetime) : Prop :=
  Datetime.valid dt /\ 1970 <= year dt.

(** The name the client gave to the uploaded file, if there is one. *)
Definition original_filename (request : Request) : option str :=
  option_map filename (multidict_get (s "file") (files request)).

(** ** Sample data *)
Definition march_first : datetime :=
  {| year := 2024; month := 3; day := 1;
     hour := 10; minute := 0; second := 0; microsecond := 0 |}.

Definition empty_storage : filesystem := {| entries := ∅; elsewhere := [] |}.

(** A request that carries one file in the field [file]. *)
Definition upload_of (name : string) (data : bytes) (declared : Z) : Request :=
  {| content_length := declared;
     files := [(s "file", {| filename := s name; stream := data |})] |}.

Definition kilobyte : bytes := repeat Byte.x00 1024.



(** Two times that agree down to the second. *)
Definition same_second (a b : datetime) : Prop :=
  year a = year b /\ month a = month b /\ day a = day b /\
  hour a = hour b /\ minute a = minute b /\ second a = second b.

(** The (name, size) pair [list_files] reports for a directory entry:
    regular files only. *)
Definition pair_of (fs : filesystem) (filename : str) : option (str * Z) :=
  match Fs.entry_of (Posixpath.join UPLOAD_FOLDER filename) with
  | Some name =>
      match entries fs !! name with
      | Some (RegularFile data _) => Some (filename, Z.of_nat (length data))
      | _ => None
      end
  | None => None
  end.

(** An upload directory with two files and a sub-directory. *)
Definition two_files : filesystem :=
  {| entries := <[s "b.txt" := RegularFile kilobyte march_first]>
                  (<[s "a.txt" := RegularFile [Byte.x41; Byte.x42] march_first]>
                     (<[s "sub" := Directory 4096]> ∅));
     elsewhere := [] |}.

(** The letters A-Z and a-z. *)
Definition is_letter (c : ascii) : bool :=
  let n := ord c in
  ((65 <=? n) && (n <=? 90)) || ((97 <=? n) && (n <=? 122)).

(** The first three steps of [secure_filename]: normal form, ASCII
    only, separators turned into spaces. *)
Definition ascii_fold (text : str) : str :=
  Py.replace "/" " "
    (Unicodedata.encode_ascii_ignore (Unicodedata.normalize_NFKD text)).

(** ** Notions used in the proofs *)

(** Every character of [text] is in the class [secure_filename] keeps. *)
Definition kept (text : str) : Prop :=
  Forall (fun c => Werkzeug.filename_ascii_keep c = true) text.

(** The body and status of a successful upload. *)
Definition success_response (unique_filename : str) (file_size : Z) (timestamp : str)
  : response :=
  Jsonify (JObject [
    ("success"%string, JBool true);
    ("message"%string, JStr (s "File uploaded successfully"));
    ("filename"%string, JStr unique_filename);
    ("size"%string, JInt file_size);
    ("timestamp"%string, JStr timestamp)]) 200.

(** Case analysis on the last decimal digit of [n]. *)
Ltac each_digit n :=
  let H := fresh in
  pose proof (Z.mod_pos_bound n 10 eq_refl) as H;
  assert (n mod 10 = 0 \/ n mod 10 = 1 \/ n mod 10 = 2 \/ n mod 10 = 3 \/
          n mod 10 = 4 \/ n mod 10 = 5 \/ n mod 10 = 6 \/ n mod 10 = 7 \/
          n mod 10 = 8 \/ n mod 10 = 9) as [->|[->|[->|[->|[->|[->|[->|[->|[->| ->]]]]]]]]]
    by lia.

(** Case analysis on the 256 characters. *)
Ltac each_char c :=
  destruct c as [[] [] [] [] [] [] [] []].

(** ** Further notions *)

(** The names a directory entry can bear: not empty, without a slash,
    and neither [.] nor [..]. *)
Definition valid_name (name : str) : bool :=
  negb (str_eqb name []) && negb (Py.contains "/" name) &&
  negb (str_eqb name (s ".")) && negb (str_eqb name (s "..")).

(** Every entry of the upload directory bears such a name. *)
Definition well_formed (fs : filesystem) : Prop :=
  forall name entry, entries fs !! name = Some entry -> valid_name name = true.

(** The (name, size) pair of a directory entry that is a regular file. *)
Definition regular_pair (entry : str * node) : option (str * Z) :=
  match entry with
  | (name, RegularFile data _) => Some (name, Z.of_nat (length data))
  | _ => None
  end.

(** One second after [march_first]. *)
Definition a_second_later : datetime :=
  {| year := 2024; month := 3; day := 1;
     hour := 10; minute := 0; second := 1; microsecond := 0 |}.

(** [a < b] on strings: the order of the code points, position by
    position. *)
Fixpoint str_ltb (a b : str) : bool :=
  match a, b with
  | _, [] => false
  | [], _ :: _ => true
  | x :: a', y :: b' => (ord x <? ord y) || ((ord x =? ord y) && str_ltb a' b')
  end.

(** [a] lies in an earlier second than [b]. *)
Definition earlier (a b : datetime) : Prop :=
  year a < year b \/ year a = year b /\
  (month a < month b \/ month a = month b /\
  (day a < day b \/ day a = day b /\
  (hour a < hour b \/ hour a = hour b /\
  (minute a < minute b \/ minute a = minute b /\ second a < second b)))).

(** ** server.py: health_check *)

(** [n] printed on [width] digits, with leading zeros ([%0<width>d]). *)
Fixpoint padded (width : nat) (n : Z) : str :=
  match width with
  | O => []
  | S width' => padded width' (n / 10) ++ [Datetime.digit n]
  end.

(** [dt.isoformat()]. *)
Definition isoformat (dt : datetime) : str :=
  padded 4 (year dt) ++ s "-" ++ padded 2 (month dt) ++ s "-" ++ padded 2 (day dt) ++
  s "T" ++ padded 2 (hour dt) ++ s ":" ++ padded 2 (minute dt) ++ s ":" ++
  padded 2 (second dt) ++
  (if microsecond dt =? 0 then [] else s "." ++ padded 6 (microsecond dt)).

Definition health_check (now : datetime) : response :=
  Jsonify (JObject [
    ("status"%string, JStr (s "healthy"));
    ("upload_folder"%string, JStr UPLOAD_FOLDER);
    ("timestamp"%string, JStr (isoformat now))]) 200.

(** ** client_example.py *)
Module Client.

(** The exceptions the client can meet. *)
Inductive exn :=
| ConnectionError
| JSONDecodeError
| KeyError (key : string)
| TypeError
| AttributeError
| OtherError (message : str).

Inductive attempt (A : Type) :=
| Got (a : A)
| Throws (e : exn).
Arguments Got {A} a.
Arguments Throws {A} e.

(** What [requests.post] and [requests.get] do: a response comes back,
    or an exception is raised. *)
Inductive reply :=
| Responded (r : response)
| Raised (e : exn).

(** The lines the client prints, each with the values it interpolates. *)
Inductive line :=
| FileDoesNotExist (file_path : str)
| Uploading (file_path server_url : str)
| UploadedAs (filename : json)
| SizeBytes (size : json)
| TimestampIs (timestamp : json)
| UploadFailed (error : json)
| CouldNotConnect (server_url : str)
| MakeSureServerIsRunning
| ErrorIs (e : exn)
| FetchingFileList (server_url : str)
| NoFilesFound
| FoundFiles (count : nat)
| FileName (name : json)
| FileSize (size : json)
| FileModified (modified : json)
| BlankLine
| FailedToListFiles
| ServerIs (status : json)
| UploadFolderIs (folder : json)
| ServerIsNotHealthy
| Usage
| UploadRequires
| UploadUsage
| ListRequires
| ListUsage
| HealthRequires
| HealthUsage
| UnknownCommand (command : str)
| ValidCommands.

(** [response.json()]: the error pages of the framework are not JSON. *)
Definition json_of (r : response) : attempt json :=
  match r with
  | Jsonify body _ => Got body
  | HTTPException _ => Throws JSONDecodeError
  end.

(** [data[key]]; a parsed object has no two fields of the same name. *)
Definition getitem (data : json) (key : string) : attempt json :=
  match data with
  | JObject fields =>
      match assoc key fields with
      | Some v => Got v
      | None => Throws (KeyError key)
      end
  | _ => Throws TypeError
  end.

(** [data.get(key, default)]. *)
Definition get (data : json) (key : string) (default : json) : attempt json :=
  match data with
  | JObject fields =>
      match assoc key fields with
      | Some v => Got v
      | None => Got default
      end
  | _ => Throws AttributeError
  end.

(** The two [except] clauses of [upload_file]: it adds a hint when the
    server cannot be reached. *)
Definition handle_upload (server_url : str) (e : exn) : list line :=
  match e with
  | ConnectionError => [CouldNotConnect server_url; MakeSureServerIsRunning]
  | _ => [ErrorIs e]
  end.

(** The two [except] clauses of [list_files] and [check_health]. *)
Definition handle (server_url : str) (e : exn) : list line :=
  match e with
  | ConnectionError => [CouldNotConnect server_url]
  | _ => [ErrorIs e]
  end.

(** [upload_file]: what is printed and what is returned.  [exists_] is
    [os.path.exists(file_path)], [opened] the exception [open] raises,
    if any, and [posted] the outcome of [requests.post]. *)
Definition upload_file (server_url file_path : str) (exists_ : bool)
    (opened : option exn) (posted : reply) : list line * bool :=
  if negb exists_ then ([FileDoesNotExist file_path], false)
  else
    let started := [Uploading file_path server_url] in
    match opened with
    | Some e => (started ++ handle_upload server_url e, false)
    | None =>
        match posted with
        | Raised e => (started ++ handle_upload server_url e, false)
        | Responded response =>
            if status_of response =? 200 then
              match json_of response with
              | Throws e => (started ++ handle_upload server_url e, false)
              | Got data =>
                  match getitem data "filename" with
                  | Throws e => (started ++ handle_upload server_url e, false)
                  | Got filename =>
                      match getitem data "size" with
                      | Throws e =>
                          (started ++ [UploadedAs filename] ++ handle_upload server_url e, false)
                      | Got size =>
                          match getitem data "timestamp" with
                          | Throws e =>
                              (started ++ [UploadedAs filename; SizeBytes size]
                                 ++ handle_upload server_url e, false)
                          | Got timestamp =>
                              (started ++ [UploadedAs filename; SizeBytes size;
                                           TimestampIs timestamp], true)
                          end
                      end
                  end
              end
            else
              match json_of response with
              | Throws e => (started ++ handle_upload server_url e, false)
              | Got data =>
                  match get data "error" (JStr (s "Unknown error")) with
                  | Throws e => (started ++ handle_upload server_url e, false)
                  | Got error => (started ++ [UploadFailed error], false)
                  end
              end
        end
    end.

(** The body of the loop [for file in files] of [list_files]. *)
Fixpoint print_files (server_url : str) (items : list json) : list line * bool :=
  match items with
  | [] => ([], true)
  | file :: rest =>
      match getitem file "name" with
      | Throws e => (handle server_url e, false)
      | Got name =>
          match getitem file "size" with
          | Throws e => ([FileName name] ++ handle server_url e, false)
          | Got size =>
              match getitem file "modified" with
              | Throws e => ([FileName name; FileSize size] ++ handle server_url e, false)
              | Got modified =>
                  let '(lines, ok) := print_files server_url rest in
                  ([FileName name; FileSize size; FileModified modified; BlankLine]
                     ++ lines, ok)
              end
          end
      end
  end.

(** [list_files]: [fetched] is the outcome of [requests.get]. *)
Definition list_files (server_url : str) (fetched : reply) : list line * bool :=
  let started := [FetchingFileList server_url] in
  match fetched with
  | Raised e => (started ++ handle server_url e, false)
  | Responded response =>
      if status_of response =? 200 then
        match json_of response with
        | Throws e => (started ++ handle server_url e, false)
        | Got data =>
            match get data "files" (JList []) with
            | Throws e => (started ++ handle server_url e, false)
            | Got (JList []) | Got (JObject []) | Got (JStr []) | Got (JBool false) =>
                (started ++ [NoFilesFound], true)
            | Got (JList items) =>
                let '(lines, ok) := print_files server_url items in
                (started ++ [FoundFiles (length items)] ++ lines, ok)
            | Got (JInt n) =>
                if n =? 0 then (started ++ [NoFilesFound], true)
                else (started ++ handle server_url TypeError, false)
            | Got (JBool true) => (started ++ handle server_url TypeError, false)
            | Got (JStr text) =>
                (started ++ [FoundFiles (length text)] ++ handle server_url TypeError, false)
            | Got (JObject fields) =>
                (started ++ [FoundFiles (length fields)] ++ handle server_url TypeError,
                 false)
            end
        end
      else (started ++ [FailedToListFiles], false)
  end.

(** [check_health]. *)
Definition check_health (server_url : str) (fetched : reply) : list line * bool :=
  match fetched with
  | Raised e => (handle server_url e, false)
  | Responded response =>
      if status_of response =? 200 then
        match json_of response with
        | Throws e => (handle server_url e, false)
        | Got data =>
            match getitem data "status" with
            | Throws e => (handle server_url e, false)
            | Got status =>
                match getitem data "upload_folder" with
                | Throws e => ([ServerIs status] ++ handle server_url e, false)
                | Got folder => ([ServerIs status; UploadFolderIs folder], true)
                end
            end
        end
      else ([ServerIsNotHealthy], false)
  end.

(** What [main] finds outside the program: the local file and the
    answer to the one request it makes. *)
Record world := {
  file_exists : bool;
  open_error : option exn;
  answer : reply
}.

(** [main] with [sys.argv = argv]: the lines printed and the exit
    status ([sys.exit(1)], or 0 when [main] returns). *)
Definition main (argv : list str) (w : world) : list line * Z :=
  match argv with
  | [] | [_] => ([Usage], 1)
  | _ :: word :: args =>
      let command := Py.lower word in
      if str_eqb command (s "upload") then
        match args with
        | [server_url; file_path] =>
            (fst (upload_file server_url file_path (file_exists w) (open_error w)
                    (answer w)), 0)
        | _ => ([UploadRequires; UploadUsage], 1)
        end
      else if str_eqb command (s "list") then
        match args with
        | [server_url] => (fst (list_files server_url (answer w)), 0)
        | _ => ([ListRequires; ListUsage], 1)
        end
      else if str_eqb command (s "health") then
        match args with
        | [server_url] => (fst (check_health server_url (answer w)), 0)
        | _ => ([HealthRequires; HealthUsage], 1)
        end
      else ([UnknownCommand command; ValidCommands], 1)
  end.

(** The (name, size) pairs among the printed lines. *)
Fixpoint shown_pairs (lines : list line) : list (str * Z) :=
  match lines with
  | FileName (JStr name) :: FileSize (JInt size) :: rest =>
      (name, size) :: shown_pairs rest
  | _ :: rest => shown_pairs rest
  | [] => []
  end.

End Client.

(** Close a goal from an equation between two responses, or two truth
    values, that differ. *)
Ltac refute H :=
  first [ discriminate H
        | cbv [error_response success_response] in H; discriminate H
        | cbn in H; discriminate H ].


(** * Properties *)

(** ** The library models on known values *)

Example rsplit1_last_dot : Py.rsplit1 "." (s "a.b.c") = [s "a.b"; s "c"].
Proof. reflexivity. Qed.

Example rsplit1_no_dot : Py.rsplit1 "." (s "abc") = [s "abc"].
Proof. reflexivity. Qed.

Example split_ws_runs : Py.split_ws (s " a  bc d ") = [s "a"; s "bc"; s "d"].
Proof. reflexivity. Qed.

Example strip_both_ends : Py.strip (s "._") (s "._a_.") = s "a".
Proof. reflexivity. Qed.

(** The examples of the documentation of [secure_filename]. *)
Example secure_filename_spaces :
  Werkzeug.secure_filename (s "My cool movie.mov") = s "My_cool_movie.mov".
Proof. reflexivity. Qed.

Example secure_filename_traversal :
  Werkzeug.secure_filename (s "../../../etc/passwd") = s "etc_passwd".
Proof. reflexivity. Qed.

Example secure_filename_umlauts :
  Werkzeug.secure_filename
    (s "i contain cool " ++ [chr 252] ++ s "ml" ++ [chr 228] ++ s "uts.txt")
  = s "i_contain_cool_umlauts.txt".
Proof. reflexivity. Qed.

Example splitext_values :
  map Posixpath.splitext [s "a.b"; s ".b"; s "..b"; s "a..b"; s "a."; s "a.b.c"; s ""; s "a/.b"]
  = [(s "a", s ".b"); (s ".b", []); (s "..b", []); (s "a.", s ".b"); (s "a", s ".");
     (s "a.b", s ".c"); ([], []); (s "a/.b", [])].
Proof. reflexivity. Qed.

Example join_values :
  map (Posixpath.join (s "uploads")) [s "a"; s "/a"; []]
  = [s "uploads/a"; s "/a"; s "uploads/"].
Proof. reflexivity. Qed.

Example strftime_value :
  Datetime.strftime march_first (s "%Y-%m-%d %H:%M:%S") = s "2024-03-01 10:00:00".
Proof. reflexivity. Qed.

Example resolve_values :
  map Fs.resolve [s "uploads/a.txt"; s "uploads/../etc/passwd"; s "uploads/../../etc/passwd";
                  s "/etc/passwd"; s "uploads//a/./b/"]
  = [Some [s "uploads"; s "a.txt"]; Some [s "etc"; s "passwd"]; None; None;
     Some [s "uploads"; s "a"; s "b"]].
Proof. reflexivity. Qed.

(** ** Strings *)

Lemma str_eqb_eq (a b : str) : str_eqb a b = true <-> a = b.
Proof.
  revert b. induction a as [|x a IH]; intros [|y b]; simpl; try (split; congruence).
  rewrite andb_true_iff, Ascii.eqb_eq, IH. split.
  - intros [-> ->]. reflexivity.
  - intros H. injection H. auto.
Qed.

Lemma str_eqb_neq (a b : str) : str_eqb a b = false <-> a <> b.
Proof.
  rewrite <- str_eqb_eq. destruct (str_eqb a b); split; congruence.
Qed.

Lemma str_eqb_refl (a : str) : str_eqb a a = true.
Proof. apply str_eqb_eq. reflexivity. Qed.

Lemma contains_In (c : ascii) (text : str) : Py.contains c text = true <-> In c text.
Proof.
  unfold Py.contains. rewrite existsb_exists. split.
  - intros (x & Hx & E). apply Ascii.eqb_eq in E. subst. exact Hx.
  - intros H. exists c. split; [exact H | apply Ascii.eqb_refl].
Qed.

Lemma contains_false (c : ascii) (text : str) : Py.contains c text = false <-> ~ In c text.
Proof.
  rewrite <- contains_In. destruct (Py.contains c text); split; congruence.
Qed.

Lemma mem_In (x : str) (collection : list str) :
  Py.mem x collection = true <-> In x collection.
Proof.
  unfold Py.mem. rewrite existsb_exists. split.
  - intros (y & Hy & E). apply str_eqb_eq in E. subst. exact Hy.
  - intros H. exists x. split; [exact H | apply str_eqb_refl].
Qed.

Lemma rcut_spec (sep : ascii) (text before after : str) :
  Py.rcut sep text = Some (before, after) ->
  text = before ++ sep :: after /\ ~ In sep after.
Proof.
  revert before after. induction text as [|c rest IH]; intros before after; simpl.
  - discriminate.
  - destruct (Py.rcut sep rest) as [[b a]|] eqn:E.
    + intros H. injection H as <- <-. destruct (IH b a eq_refl) as [-> Hn].
      split; [reflexivity | exact Hn].
    + destruct (Ascii.eqb c sep) eqn:Ec; [|discriminate].
      intros H. injection H as <- <-. apply Ascii.eqb_eq in Ec. subst c.
      split; [reflexivity|].
      clear IH. induction rest as [|d rest IH]; simpl in *; [tauto|].
      destruct (Py.rcut sep rest) as [[b a]|]; [discriminate|].
      destruct (Ascii.eqb d sep) eqn:Ed; [discriminate|].
      apply Ascii.eqb_neq in Ed. intros [H|H]; [congruence | exact (IH eq_refl H)].
Qed.

Lemma rcut_None (sep : ascii) (text : str) :
  Py.rcut sep text = None <-> ~ In sep text.
Proof.
  induction text as [|c rest IH]; simpl.
  - tauto.
  - destruct (Py.rcut sep rest) as [[b a]|] eqn:E.
    + split; [discriminate|]. intros H. exfalso. apply H. right.
      apply rcut_spec in E. destruct E as [-> _]. apply in_or_app. right. left. reflexivity.
    + destruct (Ascii.eqb c sep) eqn:Ec.
      * apply Ascii.eqb_eq in Ec. split; [discriminate | intros H; exfalso; apply H; left; exact Ec].
      * apply Ascii.eqb_neq in Ec. split; [|reflexivity].
        intros _ [H|H]; [congruence | apply IH in H; [exact H | reflexivity]].
Qed.

Lemma rcut_app (sep : ascii) (before after : str) :
  ~ In sep after -> Py.rcut sep (before ++ sep :: after) = Some (before, after).
Proof.
  intros Hn. induction before as [|c before IH]; simpl.
  - apply rcut_None in Hn. rewrite Hn, Ascii.eqb_refl. reflexivity.
  - rewrite IH. reflexivity.
Qed.

(** ** allowed_file *)

(** [allowed_file] holds exactly of the names that end in a dot followed
    by a dot-free extension whose lower-case form is allowed. *)
Lemma allowed_file_spec (name : str) :
  allowed_file name = true <->
  exists stem ext, name = stem ++ "."%char :: ext /\ ~ In "."%char ext /\
                   In (Py.lower ext) ALLOWED_EXTENSIONS.
Proof.
  unfold allowed_file, Py.rsplit1. split.
  - intros H. apply andb_true_iff in H. destruct H as [_ H].
    destruct (Py.rcut "." name) as [[stem ext]|] eqn:E; cbn [nth_error] in H;
      [|discriminate].
    apply rcut_spec in E. destruct E as [-> Hn].
    exists stem, ext. rewrite <- mem_In. auto.
  - intros (stem & ext & -> & Hn & Hin).
    rewrite (rcut_app _ _ _ Hn). cbn [nth_error]. apply andb_true_iff. split.
    + apply contains_In. apply in_or_app. right. left. reflexivity.
    + apply mem_In. exact Hin.
Qed.

(** The index [[1]] is always in range behind the guard ['.' in filename]. *)
Lemma allowed_file_index_in_range (name : str) :
  Py.contains "." name = true -> nth_error (Py.rsplit1 "." name) 1 <> None.
Proof.
  intros H. unfold Py.rsplit1.
  destruct (Py.rcut "." name) as [[b a]|] eqn:E; simpl; [discriminate|].
  apply rcut_None in E. apply contains_In in H. contradiction.
Qed.

(** ** upload_file *)

Lemma upload_file_split (request : Request) (now : datetime) (io : faults)
    (fs : filesystem) :
  upload_file request now io fs =
  match validate request with
  | Reject r => (fs, r)
  | Accept file => store file now io fs
  end.
Proof.
  unfold upload_file, validate, store, unique_filename_of.
  destruct (multidict_get (s "file") (files request)) as [file|]; [|reflexivity].
  destruct (str_eqb (filename file) []); [reflexivity|].
  destruct (negb (allowed_file (filename file))); [reflexivity|].
  destruct (Posixpath.splitext (Werkzeug.secure_filename (filename file))) as [name ext].
  reflexivity.
Qed.

Lemma validate_cases (request : Request) :
  match multidict_get (s "file") (files request) with
  | None => rejection request = Some NoFilename
  | Some file =>
      if str_eqb (filename file) [] then rejection request = Some NoFilename
      else if allowed_file (filename file) then validate request = Accept file
      else rejection request = Some DisallowedExtension
  end.
Proof.
  unfold rejection, validate.
  destruct (multidict_get (s "file") (files request)) as [file|]; [|reflexivity].
  destruct (str_eqb (filename file) []); [reflexivity|].
  destruct (allowed_file (filename file)); reflexivity.
Qed.

(** ** Characters of the stored name *)

Lemma kept_app (a b : str) : kept a -> kept b -> kept (a ++ b).
Proof. intros Ha Hb. apply Forall_app. split; assumption. Qed.

Lemma kept_not_slash (text : str) : kept text -> ~ In "/"%char text.
Proof.
  intros H Hin. unfold kept in H. rewrite List.Forall_forall in H.
  specialize (H _ Hin). vm_compute in H. discriminate.
Qed.

Lemma digit_kept (n : Z) : Werkzeug.filename_ascii_keep (Datetime.digit n) = true.
Proof. unfold Datetime.digit. each_digit n; reflexivity. Qed.

Lemma two_digits_kept (n : Z) : kept (Datetime.two_digits n).
Proof. repeat constructor; apply digit_kept. Qed.

Lemma decimal_aux_kept (fuel : nat) (n : Z) : kept (Datetime.decimal_aux fuel n).
Proof.
  revert n. induction fuel as [|fuel IH]; intros n; simpl.
  - constructor.
  - destruct (n <? 10).
    + repeat constructor; apply digit_kept.
    + apply kept_app; [apply IH | repeat constructor; apply digit_kept].
Qed.

Lemma timestamp_unfold (now : datetime) :
  Datetime.strftime now (s "%Y%m%d_%H%M%S") =
  Datetime.decimal (year now) ++ Datetime.two_digits (month now) ++
  Datetime.two_digits (day now) ++ s "_" ++ Datetime.two_digits (hour now) ++
  Datetime.two_digits (minute now) ++ Datetime.two_digits (second now).
Proof. reflexivity. Qed.

Lemma underscore_kept : kept (s "_").
Proof. repeat constructor. Qed.

Create HintDb kept.
#[local] Hint Resolve kept_app two_digits_kept decimal_aux_kept underscore_kept : kept.

Lemma timestamp_kept (now : datetime) :
  kept (Datetime.strftime now (s "%Y%m%d_%H%M%S")).
Proof. rewrite timestamp_unfold. unfold Datetime.decimal. auto 10 with kept. Qed.

#[local] Hint Resolve timestamp_kept : kept.

Lemma lstrip_suffix (chars text : str) :
  exists front, text = front ++ Py.lstrip chars text.
Proof.
  induction text as [|c rest [front IH]]; simpl.
  - exists []. reflexivity.
  - destruct (Py.contains c chars).
    + exists (c :: front). simpl. f_equal. exact IH.
    + exists []. reflexivity.
Qed.

Lemma lstrip_Forall (P : ascii -> Prop) (chars text : str) :
  Forall P text -> Forall P (Py.lstrip chars text).
Proof.
  intros H. destruct (lstrip_suffix chars text) as [front E].
  rewrite E in H. apply Forall_app in H. tauto.
Qed.

Lemma strip_Forall (P : ascii -> Prop) (chars text : str) :
  Forall P text -> Forall P (Py.strip chars text).
Proof.
  intros H. unfold Py.strip, Py.rstrip.
  apply Forall_rev, lstrip_Forall, Forall_rev, lstrip_Forall, H.
Qed.

Lemma secure_filename_kept (original : str) : kept (Werkzeug.secure_filename original).
Proof.
  unfold Werkzeug.secure_filename, Werkzeug.filename_ascii_strip_re_sub.
  apply strip_Forall. apply List.Forall_forall. intros c Hc.
  apply filter_In in Hc. tauto.
Qed.

Lemma splitext_scan_app (p : str) (dotIndex i : Z) (steps : nat) (name ext : str) :
  Posixpath.splitext_scan p dotIndex i steps = (name, ext) -> p = name ++ ext.
Proof.
  revert i. induction steps as [|steps IH]; intros i; simpl.
  - intros H. injection H as <- <-. symmetry. apply app_nil_r.
  - destruct (negb _).
    + intros H. injection H as <- <-. symmetry. apply firstn_skipn.
    + apply IH.
Qed.

(** [splitext] cuts its argument in two. *)
Lemma splitext_app (p name ext : str) :
  Posixpath.splitext p = (name, ext) -> p = name ++ ext.
Proof.
  unfold Posixpath.splitext. destruct (_ <? _).
  - apply splitext_scan_app.
  - intros H. injection H as <- <-. symmetry. apply app_nil_r.
Qed.

Lemma unique_filename_eq (original : str) (now : datetime) (name ext : str) :
  Posixpath.splitext (Werkzeug.secure_filename original) = (name, ext) ->
  unique_filename_of original now =
  name ++ s "_" ++ Datetime.strftime now (s "%Y%m%d_%H%M%S") ++ ext.
Proof. unfold unique_filename_of. intros ->. reflexivity. Qed.

Lemma unique_filename_kept (original : str) (now : datetime) :
  kept (unique_filename_of original now).
Proof.
  destruct (Posixpath.splitext (Werkzeug.secure_filename original)) as [name ext] eqn:E.
  rewrite (unique_filename_eq _ _ _ _ E).
  pose proof (secure_filename_kept original) as K.
  rewrite (splitext_app _ _ _ E) in K. apply Forall_app in K. destruct K as [Kn Ke].
  auto with kept.
Qed.

Lemma unique_filename_underscore (original : str) (now : datetime) :
  In "_"%char (unique_filename_of original now).
Proof.
  destruct (Posixpath.splitext (Werkzeug.secure_filename original)) as [name ext] eqn:E.
  rewrite (unique_filename_eq _ _ _ _ E).
  apply in_or_app. right. left. reflexivity.
Qed.

(** ** Paths *)

Lemma components_aux_no_slash (comp text : str) :
  ~ In "/"%char text -> Fs.components_aux comp text = [rev comp ++ text].
Proof.
  revert comp. induction text as [|c rest IH]; intros comp Hn; simpl.
  - rewrite app_nil_r. reflexivity.
  - destruct (Ascii.eqb c "/") eqn:Ec.
    + apply Ascii.eqb_eq in Ec. exfalso. apply Hn. left. exact Ec.
    + rewrite IH by (intros H; apply Hn; right; exact H).
      simpl. rewrite <- app_assoc. reflexivity.
Qed.

(** A name made of kept characters that contains an underscore is a
    direct entry of the upload directory once joined to it. *)
Lemma entry_of_join (name : str) :
  kept name -> In "_"%char name ->
  Posixpath.join UPLOAD_FOLDER name = s "uploads/" ++ name /\
  Fs.resolve (Posixpath.join UPLOAD_FOLDER name) = Some [UPLOAD_FOLDER; name] /\
  Fs.entry_of (Posixpath.join UPLOAD_FOLDER name) = Some name.
Proof.
  intros K U. pose proof (kept_not_slash _ K) as Hs.
  assert (Ej : Posixpath.join UPLOAD_FOLDER name = s "uploads/" ++ name).
  { unfold Posixpath.join. destruct name as [|c rest]; [reflexivity|].
    simpl. destruct (Ascii.eqb c "/") eqn:Ec; [|reflexivity].
    apply Ascii.eqb_eq in Ec. exfalso. apply Hs. left. exact Ec. }
  assert (Er : Fs.resolve (Posixpath.join UPLOAD_FOLDER name) = Some [UPLOAD_FOLDER; name]).
  { rewrite Ej. unfold Fs.resolve, Fs.components.
    change (Posixpath.startswith "/" (s "uploads/" ++ name)) with false.
    change (Fs.components_aux [] (s "uploads/" ++ name))
      with (s "uploads" :: Fs.components_aux [] name).
    rewrite (components_aux_no_slash [] name Hs).
    change (rev [] ++ name) with name.
    assert (N1 : str_eqb name [] = false).
    { apply str_eqb_neq. intros ->. destruct U. }
    assert (N2 : str_eqb name (s ".") = false).
    { apply str_eqb_neq. intros ->. destruct U as [U|[]]. discriminate. }
    assert (N3 : str_eqb name (s "..") = false).
    { apply str_eqb_neq. intros ->. destruct U as [U|[U|[]]]; discriminate. }
    cbn [Fs.walk]. change (str_eqb (s "uploads") []) with false.
    change (str_eqb (s "uploads") (s ".")) with false.
    change (str_eqb (s "uploads") (s "..")) with false.
    rewrite N1, N2, N3. reflexivity. }
  split; [exact Ej|]. split; [exact Er|].
  unfold Fs.entry_of. rewrite Er. rewrite str_eqb_refl. reflexivity.
Qed.

Lemma store_path (original : str) (now : datetime) :
  Fs.entry_of (Posixpath.join UPLOAD_FOLDER (unique_filename_of original now))
  = Some (unique_filename_of original now).
Proof.
  apply entry_of_join; [apply unique_filename_kept | apply unique_filename_underscore].
Qed.

(** ** Writing and reading back *)

Lemma write_entry (fs : filesystem) (path name : str) (data : bytes) (now : datetime) :
  Fs.entry_of path = Some name ->
  entries (Fs.write fs path data now) = <[name := RegularFile data now]> (entries fs) /\
  elsewhere (Fs.write fs path data now) = elsewhere fs.
Proof. unfold Fs.write. intros ->. split; reflexivity. Qed.

Lemma getsize_written (fs : filesystem) (path name : str) (data : bytes) (now : datetime) :
  Fs.entry_of path = Some name ->
  Fs.getsize (Fs.write fs path data now) path None = Return (Z.of_nat (length data)).
Proof.
  intros E. unfold Fs.getsize. rewrite E.
  destruct (write_entry fs path name data now E) as [-> _].
  rewrite lookup_insert_eq. reflexivity.
Qed.

Lemma save_elsewhere (file : FileStorage) (path name : str) (now : datetime)
    (fault : option save_fault) (fs : filesystem) :
  Fs.entry_of path = Some name ->
  elsewhere (fst (Fs.save file path now fault fs)) = elsewhere fs.
Proof.
  intros E. unfold Fs.save. destruct (Fs.is_directory fs path); [reflexivity|].
  destruct fault as [[e|written e]|]; simpl; try reflexivity;
    apply (write_entry fs path name _ now E).
Qed.

(** *** The [try] block, for one accepted file *)
Section Store.

Variables (file : FileStorage) (now : datetime) (io : faults) (fs : filesystem).

Lemma store_elsewhere :
  elsewhere (fst (store file now io fs)) = elsewhere fs.
Proof.
  unfold store.
  pose proof (save_elsewhere file _ _ now (save_fault_of io) fs
                (store_path (filename file) now)) as H.
  destruct (Fs.save file _ now (save_fault_of io) fs) as [fs' [[]|e]]; simpl in *.
  - destruct (Fs.getsize fs' _ (getsize_fault io)); simpl; exact H.
  - exact H.
Qed.

(** What [store] does, case by case. *)
Lemma store_cases :
  let unique_filename := unique_filename_of (filename file) now in
  let filepath := Posixpath.join UPLOAD_FOLDER unique_filename in
  match raised_in_store file now io fs with
  | Some e =>
      snd (store file now io fs) = error_response (s "Failed to save file: " ++ e) 500
  | None =>
      store file now io fs =
      ({| entries := <[unique_filename := RegularFile (stream file) now]> (entries fs);
          elsewhere := elsewhere fs |},
       success_response unique_filename (Z.of_nat (length (stream file)))
         (Datetime.strftime now (s "%Y%m%d_%H%M%S")))
  end.
Proof.
  intros unique_filename filepath. unfold raised_in_store, store.
  fold unique_filename. fold filepath.
  pose proof (store_path (filename file) now) as P. fold unique_filename filepath in P.
  unfold Fs.save. destruct (Fs.is_directory fs filepath); [reflexivity|].
  destruct (save_fault_of io) as [[e|written e]|]; try reflexivity.
  destruct (getsize_fault io) as [e|] eqn:G.
  - reflexivity.
  - rewrite (getsize_written fs filepath unique_filename _ now P).
    unfold success_response, Fs.write. rewrite P. reflexivity.
Qed.


End Store.

(** C1: whatever the original file name, traversal sequences included,
    and whatever the time, the destination path built from the derived
    name is a direct entry of the upload directory, and a request never
    writes anywhere else. *)
Theorem stored_path_stays_in_upload_folder (original : str) (now : datetime) :
  let unique_filename := unique_filename_of original now in
  let filepath := Posixpath.join UPLOAD_FOLDER unique_filename in
  filepath = s "uploads/" ++ unique_filename /\
  ~ In "/"%char unique_filename /\
  unique_filename <> s "." /\ unique_filename <> s ".." /\ unique_filename <> [] /\
  Fs.resolve filepath = Some [UPLOAD_FOLDER; unique_filename] /\
  Fs.entry_of filepath = Some unique_filename /\
  forall (request : Request) (io : faults) (fs : filesystem),
    original_filename request = Some original ->
    elsewhere (fst (upload_file request now io fs)) = elsewhere fs.
Proof.
  intros unique_filename filepath.
  pose proof (unique_filename_kept original now) as K.
  pose proof (unique_filename_underscore original now) as U.
  fold unique_filename in K, U.
  destruct (entry_of_join unique_filename K U) as (Ej & Er & Ee).
  split; [exact Ej|]. split; [apply kept_not_slash, K|].
  split. { intros E. rewrite E in U. destruct U as [U|[]]. discriminate. }
  split. { intros E. rewrite E in U. destruct U as [U|[U|[]]]; discriminate. }
  split. { intros E. rewrite E in U. destruct U. }
  split; [exact Er|]. split; [exact Ee|].
  intros request io fs _. rewrite upload_file_split.
  destruct (validate request) as [file|r]; [apply store_elsewhere | reflexivity].
Qed.

Example traversal_name :
  unique_filename_of (s "../../etc/passwd") march_first = s "etc_passwd_20240301_100000".
Proof. reflexivity. Qed.

Lemma stored_path_stays_in_upload_folder_witness :
  original_filename (upload_of "../../etc/passwd.txt" kilobyte 1224)
    = Some (s "../../etc/passwd.txt") /\
  Fs.resolve (Posixpath.join UPLOAD_FOLDER
                (unique_filename_of (s "../../etc/passwd.txt") march_first))
    = Some [UPLOAD_FOLDER; s "etc_passwd_20240301_100000.txt"] /\
  elsewhere (fst (upload_file (upload_of "../../etc/passwd.txt" kilobyte 1224)
                    march_first no_faults empty_storage)) = [].
Proof.
  split; [reflexivity|]. split.
  - apply (stored_path_stays_in_upload_folder (s "../../etc/passwd.txt") march_first).
  - apply (stored_path_stays_in_upload_folder (s "../../etc/passwd.txt") march_first).
    reflexivity.
Defined.

(** ** Rejections *)

(** C7: a request without a file part, or whose file has an empty name,
    is turned down with [NoFilename] and nothing else, and the upload
    directory is left as it was. *)
Theorem missing_filename_rejected (request : Request) (now : datetime)
    (io : faults) (fs : filesystem) :
  original_filename request = None \/ original_filename request = Some [] ->
  rejection request = Some NoFilename /\
  exists r, upload_file request now io fs = (fs, r) /\
            reason_of r = Some NoFilename /\ status_of r = 400 /\
            is_success r = false.
Proof.
  unfold original_filename, rejection. intros H.
  rewrite upload_file_split. unfold validate.
  destruct (multidict_get (s "file") (files request)) as [file|]; simpl in H.
  - destruct H as [H|H]; [discriminate|]. injection H as H. rewrite H.
    cbn [str_eqb]. split; [reflexivity|]. eexists. repeat split.
  - split; [reflexivity|]. eexists. repeat split.
Qed.

Lemma missing_filename_rejected_witness :
  (original_filename (upload_of "" kilobyte 1224) = Some [] /\
   rejection (upload_of "" kilobyte 1224) = Some NoFilename) /\
  (original_filename {| content_length := 0; files := [] |} = None /\
   fst (upload_file {| content_length := 0; files := [] |}
          march_first no_faults empty_storage) = empty_storage).
Proof.
  split; (split; [reflexivity|]).
  - apply (missing_filename_rejected (upload_of "" kilobyte 1224)
             march_first no_faults empty_storage).
    right. reflexivity.
  - destruct (missing_filename_rejected {| content_length := 0; files := [] |}
                march_first no_faults empty_storage (or_introl eq_refl))
      as (_ & r & E & _).
    rewrite E. reflexivity.
Defined.

Lemma lower_after_last_dot_unique (stem ext stem' ext' : str) :
  stem ++ "."%char :: ext = stem' ++ "."%char :: ext' ->
  ~ In "."%char ext -> ~ In "."%char ext' -> stem = stem' /\ ext = ext'.
Proof.
  intros E H H'. pose proof (rcut_app "." stem ext H) as R.
  rewrite E, (rcut_app "." stem' ext' H') in R. injection R as -> ->. auto.
Qed.

(** C2: a request with a non-empty file name is turned down with
    [DisallowedExtension] exactly when the name has no dot, or the part
    after its last dot, in lower case, is not in [ALLOWED_EXTENSIONS].
    The test looks at the name only (not at the content or the declared
    size) and does not tell upper case from lower case. *)
Theorem disallowed_extension_iff (request : Request) (file : FileStorage) :
  multidict_get (s "file") (files request) = Some file ->
  str_eqb (filename file) [] = false ->
  (rejection request = Some DisallowedExtension <->
   (~ In "."%char (filename file) \/
    exists stem ext, filename file = stem ++ "."%char :: ext /\
                     ~ In "."%char ext /\
                     ~ In (Py.lower ext) ALLOWED_EXTENSIONS)) /\
  (forall (request' : Request) (file' : FileStorage),
      multidict_get (s "file") (files request') = Some file' ->
      filename file' = filename file ->
      rejection request' = rejection request) /\
  (forall stem ext ext',
      filename file = stem ++ "."%char :: ext ->
      ~ In "."%char ext -> ~ In "."%char ext' -> Py.lower ext' = Py.lower ext ->
      allowed_file (stem ++ "."%char :: ext') = allowed_file (filename file)).
Proof.
  intros Hfile Hname.
  pose proof (validate_cases request) as V. rewrite Hfile, Hname in V.
  split; [|split].
  - destruct (allowed_file (filename file)) eqn:A.
    + unfold rejection. rewrite V. split; [discriminate|].
      apply allowed_file_spec in A. destruct A as (stem & ext & E & Hn & Hin).
      intros [H|(stem' & ext' & E' & Hn' & Hnot)]; exfalso.
      * apply H. rewrite E. apply in_or_app. right. left. reflexivity.
      * rewrite E in E'.
        destruct (lower_after_last_dot_unique _ _ _ _ E' Hn Hn') as [_ <-].
        contradiction.
    + split; [intros _ | intros _; exact V].
      destruct (Py.rcut "." (filename file)) as [[stem ext]|] eqn:R.
      * right. apply rcut_spec in R. destruct R as [E Hn].
        exists stem, ext. split; [exact E|]. split; [exact Hn|].
        intros Hin. assert (allowed_file (filename file) = true) as A'.
        { apply allowed_file_spec. exists stem, ext. auto. }
        congruence.
      * left. apply rcut_None. exact R.
  - intros request' file' Hfile' Ename.
    pose proof (validate_cases request') as V'. rewrite Hfile', Ename, Hname in V'.
    unfold rejection in *.
    destruct (allowed_file (filename file)); [rewrite V, V'; reflexivity | congruence].
  - intros stem ext ext' E Hn Hn' El. rewrite E.
    unfold allowed_file, Py.rsplit1.
    rewrite (rcut_app "." stem ext Hn), (rcut_app "." stem ext' Hn').
    cbn [nth_error]. rewrite El. f_equal.
    destruct (Py.contains "." (stem ++ "."%char :: ext)) eqn:C1,
             (Py.contains "." (stem ++ "."%char :: ext')) eqn:C2; try reflexivity;
      exfalso; [apply contains_false in C2; apply C2 | apply contains_false in C1; apply C1];
      apply in_or_app; right; left; reflexivity.
Qed.

Lemma disallowed_extension_iff_witness :
  (multidict_get (s "file") (files (upload_of "malware.exe" kilobyte 1224))
     = Some {| filename := s "malware.exe"; stream := kilobyte |} /\
   str_eqb (s "malware.exe") [] = false) /\
  rejection (upload_of "malware.exe" kilobyte 1224) = Some DisallowedExtension /\
  allowed_file (s "report.PDF") = allowed_file (s "report.pdf").
Proof.
  split; [split; reflexivity|]. split.
  - apply (disallowed_extension_iff (upload_of "malware.exe" kilobyte 1224)
             {| filename := s "malware.exe"; stream := kilobyte |} eq_refl eq_refl).
    right. exists (s "malware"), (s "exe"). split; [reflexivity|].
    split; [|unfold ALLOWED_EXTENSIONS; simpl]; intros H;
      repeat (destruct H as [H|H]; [discriminate|]); destruct H.
  - destruct (disallowed_extension_iff (upload_of "report.pdf" kilobyte 1224)
                {| filename := s "report.pdf"; stream := kilobyte |} eq_refl eq_refl)
      as (_ & _ & H).
    apply (H (s "report") (s "pdf") (s "PDF")); [reflexivity| | |reflexivity];
      simpl; intros D; repeat (destruct D as [D|D]; [discriminate|]); destruct D.
Defined.

(** ** The size limit *)

Lemma allowed_file_nonempty (name : str) :
  allowed_file name = true -> str_eqb name [] = false.
Proof. destruct name; [discriminate | reflexivity]. Qed.




(** ** Storing an accepted file *)








(** ** The time stamp *)

Lemma ord_chr (n : Z) : 0 <= n < 256 -> ord (chr n) = n.
Proof. intros H. unfold ord, chr. rewrite N_ascii_embedding; lia. Qed.

Lemma digit_inj (a b : Z) : Datetime.digit a = Datetime.digit b -> a mod 10 = b mod 10.
Proof.
  unfold Datetime.digit. intros E. apply (f_equal ord) in E.
  pose proof (Z.mod_pos_bound a 10 eq_refl). pose proof (Z.mod_pos_bound b 10 eq_refl).
  rewrite !ord_chr in E by lia. lia.
Qed.

Lemma decimal_four_digits (y : Z) :
  1000 <= y <= 9999 ->
  Datetime.decimal y =
  [Datetime.digit (y / 1000); Datetime.digit (y / 100); Datetime.digit (y / 10);
   Datetime.digit y].
Proof.
  intros H. unfold Datetime.decimal.
  assert (9 <= Z.log2 y) as L.
  { change 9 with (Z.log2 512). apply Z.log2_le_mono. lia. }
  destruct (Z.to_nat (Z.log2 y)) as [|[|[|fuel]]] eqn:F; try lia.
  cbn [Datetime.decimal_aux].
  assert (y / 10 / 10 = y / 100) as E2 by (Z.div_mod_to_equations; lia).
  assert (y / 100 / 10 = y / 1000) as E3 by (Z.div_mod_to_equations; lia).
  rewrite E2, E3.
  destruct (Z.ltb_spec y 10); [lia|].
  destruct (Z.ltb_spec (y / 10) 10); [Z.div_mod_to_equations; lia|].
  destruct (Z.ltb_spec (y / 100) 10); [Z.div_mod_to_equations; lia|].
  destruct (Z.ltb_spec (y / 1000) 10); [|Z.div_mod_to_equations; lia].
  reflexivity.
Qed.

(** The shape [YYYYMMDD_HHMMSS]. *)
Lemma timestamp_shape (now : datetime) :
  1000 <= year now <= 9999 ->
  Datetime.strftime now (s "%Y%m%d_%H%M%S") =
  [Datetime.digit (year now / 1000); Datetime.digit (year now / 100);
   Datetime.digit (year now / 10); Datetime.digit (year now);
   Datetime.digit (month now / 10); Datetime.digit (month now);
   Datetime.digit (day now / 10); Datetime.digit (day now);
   "_"%char;
   Datetime.digit (hour now / 10); Datetime.digit (hour now);
   Datetime.digit (minute now / 10); Datetime.digit (minute now);
   Datetime.digit (second now / 10); Datetime.digit (second now)].
Proof.
  intros H. rewrite timestamp_unfold, (decimal_four_digits _ H). reflexivity.
Qed.

Lemma timestamp_same_second (a b : datetime) :
  clock_value a -> clock_value b ->
  (Datetime.strftime a (s "%Y%m%d_%H%M%S") = Datetime.strftime b (s "%Y%m%d_%H%M%S")
   <-> same_second a b).
Proof.
  intros [Va Ya] [Vb Yb]. unfold Datetime.valid in Va, Vb. split.
  - rewrite !timestamp_shape by lia. intros E.
    injection E as y3 y2 y1 y0 m1 m0 d1 d0 H1 H0 M1 M0 S1 S0.
    apply digit_inj in y3, y2, y1, y0, m1, m0, d1, d0, H1, H0, M1, M0, S1, S0.
    unfold same_second. repeat split; Z.div_mod_to_equations; lia.
  - intros (Ey & Em & Ed & EH & EM & ES).
    rewrite !timestamp_unfold, Ey, Em, Ed, EH, EM, ES. reflexivity.
Qed.

(** C5: the stored name is the stem of the sanitized name, an
    underscore, the time stamp and the extension of the sanitized name;
    the time stamp is the 15 characters [YYYYMMDD_HHMMSS], the same for
    two times exactly when they agree down to the second. *)
Theorem stored_name_composition (original : str) (now : datetime) (stem ext : str) :
  clock_value now ->
  Posixpath.splitext (Werkzeug.secure_filename original) = (stem, ext) ->
  let timestamp := Datetime.strftime now (s "%Y%m%d_%H%M%S") in
  unique_filename_of original now = stem ++ s "_" ++ timestamp ++ ext /\
  stem ++ ext = Werkzeug.secure_filename original /\
  timestamp =
    [Datetime.digit (year now / 1000); Datetime.digit (year now / 100);
     Datetime.digit (year now / 10); Datetime.digit (year now);
     Datetime.digit (month now / 10); Datetime.digit (month now);
     Datetime.digit (day now / 10); Datetime.digit (day now);
     "_"%char;
     Datetime.digit (hour now / 10); Datetime.digit (hour now);
     Datetime.digit (minute now / 10); Datetime.digit (minute now);
     Datetime.digit (second now / 10); Datetime.digit (second now)] /\
  length timestamp = 15%nat /\
  forall now', clock_value now' ->
    (Datetime.strftime now' (s "%Y%m%d_%H%M%S") = timestamp <-> same_second now' now).
Proof.
  intros C E timestamp.
  assert (1000 <= year now <= 9999) as Y.
  { destruct C as [V Y]. unfold Datetime.valid in V. lia. }
  split; [apply unique_filename_eq, E|].
  split; [symmetry; apply splitext_app, E|].
  split; [apply timestamp_shape, Y|].
  split; [unfold timestamp; rewrite (timestamp_shape _ Y); reflexivity|].
  intros now' C'. apply timestamp_same_second; assumption.
Qed.

Lemma stored_name_composition_witness :
  (clock_value march_first /\
   Posixpath.splitext (Werkzeug.secure_filename (s "My report.tar.GZ"))
   = (s "My_report.tar", s ".GZ")) /\
  unique_filename_of (s "My report.tar.GZ") march_first
  = s "My_report.tar" ++ s "_" ++ s "20240301_100000" ++ s ".GZ".
Proof.
  assert (clock_value march_first) as C.
  { unfold clock_value, Datetime.valid. simpl. lia. }
  split; [split; [exact C | reflexivity]|].
  apply (stored_name_composition (s "My report.tar.GZ") march_first
           (s "My_report.tar") (s ".GZ") C eq_refl).
Defined.

(** ** list_files *)

Lemma list_files_loop_pairs (fs : filesystem) (listing : list str) :
  exists items, list_files_loop fs listing = Return items /\
                omap name_size items = omap (pair_of fs) listing.
Proof.
  induction listing as [|filename rest (items & IH & IHp)].
  - exists []. split; reflexivity.
  - cbn [list_files_loop]. unfold Fs.isfile, Fs.getsize, Fs.getmtime.
    change (omap (pair_of fs) (filename :: rest))
      with (match pair_of fs filename with
            | Some p => p :: omap (pair_of fs) rest
            | None => omap (pair_of fs) rest
            end).
    unfold pair_of.
    destruct (Fs.entry_of (Posixpath.join UPLOAD_FOLDER filename)) as [name|].
    + destruct (entries fs !! name) as [[data mtime|sz|sz]|].
      * rewrite IH. eexists. split; [reflexivity|].
        cbn. f_equal. exact IHp.
      * exists items. auto.
      * exists items. auto.
      * exists items. auto.
    + exists items. auto.
Qed.

(** Without a fault [list_files] answers 200, leaves the directory as it
    is and reports the regular files of the listing. *)
Lemma list_files_pairs (fs : filesystem) (listing : list str) :
  fst (list_files listing None fs) = fs /\
  status_of (snd (list_files listing None fs)) = 200 /\
  listed_pairs (snd (list_files listing None fs)) = omap (pair_of fs) listing.
Proof.
  unfold list_files.
  destruct (list_files_loop_pairs fs listing) as (items & -> & E).
  repeat split. exact E.
Qed.

(** C8: two calls of [list_files] in a row, with nothing written in
    between, report the same (name, size) pairs, whatever the orders in
    which the operating system enumerates the directory. *)
Theorem listing_twice_same_pairs (fs : filesystem) (listing1 listing2 : list str) :
  let first := list_files listing1 None fs in
  let second := list_files listing2 None (fst first) in
  listdir_result fs listing1 ->
  listdir_result (fst first) listing2 ->
  fst first = fs /\ fst second = fs /\
  status_of (snd first) = 200 /\ status_of (snd second) = 200 /\
  Permutation (listed_pairs (snd first)) (listed_pairs (snd second)) /\
  forall p, In p (listed_pairs (snd first)) <-> In p (listed_pairs (snd second)).
Proof.
  intros first second. unfold second, first.
  destruct (list_files_pairs fs listing1) as (-> & S1 & ->).
  destruct (list_files_pairs fs listing2) as (-> & S2 & ->).
  unfold listdir_result. intros L1 L2.
  assert (Permutation (omap (pair_of fs) listing1) (omap (pair_of fs) listing2)) as P.
  { apply omap_Permutation. rewrite L1, L2. reflexivity. }
  repeat split; try assumption.
  - apply Permutation_in. exact P.
  - apply Permutation_in. symmetry. exact P.
Qed.

Lemma listing_twice_same_pairs_witness :
  (listdir_result two_files [s "sub"; s "a.txt"; s "b.txt"] /\
   listdir_result two_files [s "b.txt"; s "a.txt"; s "sub"]) /\
  listed_pairs (snd (list_files [s "sub"; s "a.txt"; s "b.txt"] None two_files))
    = [(s "a.txt", 2); (s "b.txt", 1024)] /\
  Permutation
    (listed_pairs (snd (list_files [s "sub"; s "a.txt"; s "b.txt"] None two_files)))
    (listed_pairs (snd (list_files [s "b.txt"; s "a.txt"; s "sub"] None two_files))).
Proof.
  assert (listdir_result two_files [s "b.txt"; s "a.txt"; s "sub"]) as L2.
  { unfold listdir_result. vm_compute. reflexivity. }
  assert (listdir_result two_files [s "sub"; s "a.txt"; s "b.txt"]) as L1.
  { unfold listdir_result. vm_compute.
    exact (Permutation_rev [_; _; _]). }
  split; [split; assumption|]. split; [vm_compute; reflexivity|].
  destruct (listing_twice_same_pairs two_files [s "sub"; s "a.txt"; s "b.txt"]
              [s "b.txt"; s "a.txt"; s "sub"] L1 L2) as (_ & _ & _ & _ & P & _).
  exact P.
Defined.

(** ** What sanitizing keeps of an accepted name *)

Lemma lower_char_letter (c : ascii) :
  is_letter (Py.lower_char c) = true -> is_letter c = true.
Proof. each_char c; vm_compute; intros H; first [reflexivity | discriminate H]. Qed.

(** A letter goes through every step of [secure_filename] unchanged. *)
Lemma letter_facts (c : ascii) :
  is_letter c = true ->
  ascii_fold [c] = [c] /\ Py.isspace c = false /\
  Werkzeug.filename_ascii_keep c = true /\ Py.contains c (s "._") = false.
Proof.
  each_char c; vm_compute; intros H; first [discriminate H | repeat split].
Qed.

Lemma allowed_extension_letters (ext : str) :
  In ext ALLOWED_EXTENSIONS -> ext <> [] /\ forallb is_letter ext = true.
Proof.
  unfold ALLOWED_EXTENSIONS. simpl.
  intros H. repeat (destruct H as [<-|H]; [split; [discriminate | reflexivity]|]).
  destruct H.
Qed.

Lemma lower_allowed_letters (ext : str) :
  In (Py.lower ext) ALLOWED_EXTENSIONS ->
  ext <> [] /\ Forall (fun c => is_letter c = true) ext.
Proof.
  intros H. apply allowed_extension_letters in H. destruct H as [Hne Hl]. split.
  - intros ->. apply Hne. reflexivity.
  - clear Hne. induction ext as [|c ext IH]; [constructor|].
    simpl in Hl. apply andb_true_iff in Hl. destruct Hl as [Hc Hl].
    constructor; [apply lower_char_letter, Hc | apply IH, Hl].
Qed.

Lemma ascii_fold_app (a b : str) : ascii_fold (a ++ b) = ascii_fold a ++ ascii_fold b.
Proof.
  unfold ascii_fold, Unicodedata.normalize_NFKD, Unicodedata.encode_ascii_ignore, Py.replace.
  rewrite flat_map_app, List.filter_app, !map_app. reflexivity.
Qed.

Lemma ascii_fold_letters (text : str) :
  Forall (fun c => is_letter c = true) text -> ascii_fold text = text.
Proof.
  induction 1 as [|c text Hc _ IH]; [reflexivity|].
  change (c :: text) with ([c] ++ text) at 1. rewrite ascii_fold_app, IH.
  destruct (letter_facts c Hc) as [-> _]. reflexivity.
Qed.

Lemma secure_filename_unfold (original : str) :
  Werkzeug.secure_filename original =
  Py.strip (s "._")
    (List.filter Werkzeug.filename_ascii_keep
       (Py.join (s "_") (Py.split_ws (ascii_fold original)))).
Proof. reflexivity. Qed.

Lemma split_ws_aux_no_space (word text : str) :
  Forall (fun c => Py.isspace c = false) text ->
  word <> [] \/ text <> [] ->
  Py.split_ws_aux word text = [rev word ++ text].
Proof.
  intros H. revert word. induction H as [|c text Hc _ IH]; intros word Hne.
  - destruct Hne as [Hne|Hne]; [|congruence].
    destruct word; [congruence|]. simpl. rewrite app_nil_r. reflexivity.
  - simpl. rewrite Hc. rewrite IH by (left; discriminate).
    simpl. rewrite <- app_assoc. reflexivity.
Qed.

Lemma join_cons (sep p : str) (ps : list str) :
  ps <> [] -> Py.join sep (p :: ps) = p ++ sep ++ Py.join sep ps.
Proof. destruct ps; [congruence | reflexivity]. Qed.

(** A tail without white space ends the last word of [split], and so
    ends the joined string. *)
Lemma join_split_tail (sep head tail : str) :
  tail <> [] -> Forall (fun c => Py.isspace c = false) tail ->
  forall word, exists front,
    Py.split_ws_aux word (head ++ tail) <> [] /\
    Py.join sep (Py.split_ws_aux word (head ++ tail)) = front ++ tail.
Proof.
  intros Hne Ht. induction head as [|c head IH]; intros word.
  - simpl. rewrite (split_ws_aux_no_space word tail Ht) by (right; exact Hne).
    exists (rev word). split; [discriminate | reflexivity].
  - simpl. destruct (Py.isspace c).
    + destruct word as [|w word]; [apply IH|].
      destruct (IH []) as (front & Hn & E).
      exists (rev (w :: word) ++ sep ++ front). split; [discriminate|].
      rewrite join_cons by exact Hn. rewrite E, !app_assoc. reflexivity.
    + apply IH.
Qed.

Lemma lstrip_before_extension (chars front ext : str) :
  Py.contains "." chars = true ->
  ext <> [] -> Forall (fun c => Py.contains c chars = false) ext ->
  Py.lstrip chars (front ++ "."%char :: ext) = ext \/
  exists c stem' skipped,
    Py.contains c chars = false /\ front = skipped ++ c :: stem' /\
    Py.lstrip chars (front ++ "."%char :: ext) = (c :: stem') ++ "."%char :: ext.
Proof.
  intros Hdot Hne Hext. induction front as [|c front IH]; simpl.
  - rewrite Hdot. left. destruct Hext as [|e ext He _]; [congruence|].
    simpl. rewrite He. reflexivity.
  - destruct (Py.contains c chars) eqn:Ec.
    + destruct IH as [IH|(c' & stem' & skipped & Hc & -> & IH)]; [left; exact IH|].
      right. exists c', stem', (c :: skipped). auto.
    + right. exists c, front, []. auto.
Qed.

Lemma rstrip_last_kept (chars init : str) (c : ascii) :
  Py.contains c chars = false -> Py.rstrip chars (init ++ [c]) = init ++ [c].
Proof.
  intros Hc. unfold Py.rstrip. rewrite rev_app_distr. simpl. rewrite Hc.
  simpl. rewrite rev_involutive. reflexivity.
Qed.

Lemma nonempty_last (P : ascii -> Prop) (text : str) :
  text <> [] -> Forall P text -> exists init c, text = init ++ [c] /\ P c.
Proof.
  intros Hne H. destruct (rev text) as [|c l] eqn:E.
  - apply (f_equal (@rev ascii)) in E. rewrite rev_involutive in E. contradiction.
  - apply (f_equal (@rev ascii)) in E. rewrite rev_involutive in E. simpl in E.
    exists (rev l), c. split; [exact E|].
    rewrite E in H. apply Forall_app in H. destruct H as [_ H].
    inversion H. assumption.
Qed.

(** Stripping dots and underscores from a string that ends in a dot and
    an extension made of letters leaves the extension alone, or with
    something in front of its dot. *)
Lemma strip_before_extension (front ext : str) :
  ext <> [] -> Forall (fun c => is_letter c = true) ext ->
  Py.strip (s "._") (front ++ "."%char :: ext) = ext \/
  exists c stem' skipped,
    Py.contains c (s "._") = false /\ front = skipped ++ c :: stem' /\
    Py.strip (s "._") (front ++ "."%char :: ext) = (c :: stem') ++ "."%char :: ext.
Proof.
  intros Hne Hl.
  assert (Forall (fun c => Py.contains c (s "._") = false) ext) as Hc.
  { eapply List.Forall_impl; [|exact Hl]. intros c H. apply (letter_facts c H). }
  destruct (nonempty_last _ ext Hne Hc) as (init & e & E & He).
  unfold Py.strip.
  destruct (lstrip_before_extension (s "._") front ext eq_refl Hne Hc)
    as [->|(c & stem' & skipped & Hcc & Ef & ->)].
  - left. rewrite E. apply rstrip_last_kept, He.
  - right. exists c, stem', skipped. split; [exact Hcc|]. split; [exact Ef|].
    rewrite E.
    change ((c :: stem') ++ "."%char :: init ++ [e])
      with ((c :: stem') ++ ("."%char :: init) ++ [e]).
    rewrite app_assoc. apply rstrip_last_kept, He.
Qed.

Lemma firstn_length_app (a b : str) : firstn (length a) (a ++ b) = a.
Proof. induction a as [|c a IH]; simpl; [destruct b|rewrite IH]; reflexivity. Qed.

Lemma skipn_length_app (a b : str) : skipn (length a) (a ++ b) = b.
Proof. induction a as [|c a IH]; simpl; [reflexivity | exact IH]. Qed.

Lemma rfind_lower_bound (c : ascii) (text : str) : -1 <= Py.rfind c text.
Proof. unfold Py.rfind. destruct (Py.rcut c text) as [[b a]|]; lia. Qed.

Lemma splitext_no_dot (p : str) : ~ In "."%char p -> Posixpath.splitext p = (p, []).
Proof.
  intros H. unfold Posixpath.splitext.
  replace (Py.rfind "." p) with (-1).
  - pose proof (rfind_lower_bound "/" p).
    destruct (Z.ltb_spec (Py.rfind "/" p) (-1)); [lia | reflexivity].
  - unfold Py.rfind. apply rcut_None in H. rewrite H. reflexivity.
Qed.

Lemma splitext_stem_extension (c : ascii) (stem' ext : str) :
  c <> "."%char -> ~ In "/"%char ((c :: stem') ++ "."%char :: ext) ->
  ~ In "."%char ext ->
  Posixpath.splitext ((c :: stem') ++ "."%char :: ext) = (c :: stem', "."%char :: ext).
Proof.
  intros Hc Hs Hd. unfold Posixpath.splitext, Py.rfind.
  apply rcut_None in Hs. rewrite Hs, (rcut_app "." (c :: stem') ext Hd).
  destruct (Z.ltb_spec (-1) (Z.of_nat (length (c :: stem')))); [|lia].
  replace (Z.to_nat (Z.of_nat (length (c :: stem')) - (-1 + 1)))
    with (S (length stem')) by (simpl length; lia).
  cbn [Posixpath.splitext_scan].
  change (Py.slice ((c :: stem') ++ "."%char :: ext) (-1 + 1) (-1 + 1 + 1)) with [c].
  assert (str_eqb [c] (s ".") = false) as ->.
  { apply str_eqb_neq. intros E. injection E as E. contradiction. }
  cbn [negb]. rewrite Nat2Z.id, firstn_length_app, skipn_length_app. reflexivity.
Qed.

(** The sanitized form of a name that passes [allowed_file]: the
    extension survives letter for letter, either alone (nothing else is
    left of the name) or behind a non-empty stem and a dot. *)
Lemma accepted_name_shape (original : str) :
  allowed_file original = true ->
  exists front ext,
    original = front ++ "."%char :: ext /\ ~ In "."%char ext /\ ext <> [] /\
    In (Py.lower ext) ALLOWED_EXTENSIONS /\
    (Posixpath.splitext (Werkzeug.secure_filename original) = (ext, []) \/
     exists stem, stem <> [] /\
       Posixpath.splitext (Werkzeug.secure_filename original) = (stem, "."%char :: ext)).
Proof.
  intros A. apply allowed_file_spec in A. destruct A as (front & ext & -> & Hd & Hin).
  destruct (lower_allowed_letters ext Hin) as [Hne Hl].
  exists front, ext. repeat (split; [assumption || reflexivity|]).
  assert (Forall (fun c => Py.isspace c = false) ("."%char :: ext)) as Hsp.
  { constructor; [reflexivity|]. eapply List.Forall_impl; [|exact Hl].
    intros c H. apply (letter_facts c H). }
  assert (kept ("."%char :: ext)) as Hk.
  { constructor; [reflexivity|]. eapply List.Forall_impl; [|exact Hl].
    intros c H. apply (letter_facts c H). }
  rewrite secure_filename_unfold.
  change (front ++ "."%char :: ext) with (front ++ ["."%char] ++ ext).
  rewrite !ascii_fold_app, (ascii_fold_letters ext Hl).
  change (ascii_fold ["."%char] ++ ext) with ("."%char :: ext).
  unfold Py.split_ws.
  destruct (join_split_tail (s "_") (ascii_fold front) ("."%char :: ext)
              ltac:(discriminate) Hsp []) as (joined & _ & ->).
  rewrite List.filter_app.
  replace (List.filter Werkzeug.filename_ascii_keep ("."%char :: ext))
    with ("."%char :: ext).
  2:{ symmetry. apply forallb_filter_id. apply forallb_forall.
      apply List.Forall_forall. exact Hk. }
  set (clean := List.filter Werkzeug.filename_ascii_keep joined).
  assert (kept clean) as Kc.
  { apply List.Forall_forall. intros c Hc. apply filter_In in Hc. tauto. }
  destruct (strip_before_extension clean ext Hne Hl)
    as [->|(c & stem' & skipped & Hc & Ec & ->)].
  - left. apply splitext_no_dot, Hd.
  - right. exists (c :: stem'). split; [discriminate|].
    apply splitext_stem_extension.
    + intros ->. discriminate Hc.
    + apply kept_not_slash. rewrite Ec in Kc. apply Forall_app in Kc.
      destruct Kc as [_ Kc]. apply kept_app; assumption.
    + exact Hd.
Qed.

Lemma validate_accept (request : Request) (file : FileStorage) :
  validate request = Accept file ->
  multidict_get (s "file") (files request) = Some file /\
  allowed_file (filename file) = true.
Proof.
  unfold validate.
  destruct (multidict_get (s "file") (files request)) as [f|]; [|discriminate].
  destruct (str_eqb (filename f) []); [discriminate|].
  destruct (allowed_file (filename f)) eqn:A; [|discriminate].
  intros H. injection H as <-. auto.
Qed.



(** C10: for an accepted upload the stored name ends with the extension
    of the sanitized name as it stands; when there is one it is the dot
    and the extension the client wrote, letter case included, so the
    stored extension need not be one of [ALLOWED_EXTENSIONS]. *)
Theorem extension_case_preserved (original : str) (now : datetime) (stem E : str) :
  allowed_file original = true ->
  Posixpath.splitext (Werkzeug.secure_filename original) = (stem, E) ->
  unique_filename_of original now =
    (stem ++ s "_" ++ Datetime.strftime now (s "%Y%m%d_%H%M%S")) ++ E /\
  (E = [] \/
   exists front ext, original = front ++ "."%char :: ext /\ ~ In "."%char ext /\
                     In (Py.lower ext) ALLOWED_EXTENSIONS /\ E = "."%char :: ext) /\
  (exists original' stem' ext',
     allowed_file original' = true /\
     Posixpath.splitext (Werkzeug.secure_filename original') = (stem', "."%char :: ext') /\
     ~ In ext' ALLOWED_EXTENSIONS).
Proof.
  intros A S. split; [|split].
  - rewrite (unique_filename_eq _ now _ _ S), <- !app_assoc. reflexivity.
  - destruct (accepted_name_shape original A)
      as (front & ext & Eo & Hd & _ & Hin & [S'|(stem' & _ & S')]);
      rewrite S in S'; injection S' as -> ->.
    + left. reflexivity.
    + right. exists front, ext. auto.
  - exists (s "report.PDF"), (s "report"), (s "PDF").
    split; [reflexivity|]. split; [reflexivity|].
    simpl. intros H. repeat (destruct H as [H|H]; [discriminate|]). destruct H.
Qed.

Lemma extension_case_preserved_witness :
  (allowed_file (s "Holiday Photo.JpG") = true /\
   Posixpath.splitext (Werkzeug.secure_filename (s "Holiday Photo.JpG"))
   = (s "Holiday_Photo", s ".JpG")) /\
  unique_filename_of (s "Holiday Photo.JpG") march_first
  = (s "Holiday_Photo" ++ s "_" ++ Datetime.strftime march_first (s "%Y%m%d_%H%M%S"))
    ++ s ".JpG".
Proof.
  split; [split; reflexivity|].
  apply (extension_case_preserved (s "Holiday Photo.JpG") march_first
           (s "Holiday_Photo") (s ".JpG") eq_refl eq_refl).
Defined.

(** * Further properties *)

(** ** Status codes of upload_file *)

Lemma store_status (file : FileStorage) (now : datetime) (io : faults) (fs : filesystem) :
  status_of (snd (store file now io fs)) = 200 \/
  status_of (snd (store file now io fs)) = 500.
Proof.
  pose proof (store_cases file now io fs) as C. cbv zeta in C.
  destruct (raised_in_store file now io fs) as [e|]; rewrite C; [right | left]; reflexivity.
Qed.

(** X1: [upload_file] answers 200, 400 or 500; it answers 400 exactly
    when one of the checks before the [try] block fails, with
    [NoFilename] or [DisallowedExtension] as the reason, and then the
    file system is as it was. *)
Theorem upload_status_cases (request : Request) (now : datetime) (io : faults)
    (fs : filesystem) :
  let result := upload_file request now io fs in
  (status_of (snd result) = 200 \/ status_of (snd result) = 400 \/
   status_of (snd result) = 500) /\
  (status_of (snd result) = 400 <-> rejection request <> None) /\
  (forall why, rejection request = Some why ->
     (why = NoFilename \/ why = DisallowedExtension) /\
     reason_of (snd result) = Some why /\ fst result = fs).
Proof.
  intros result. unfold result. rewrite upload_file_split.
  pose proof (validate_cases request) as V. unfold rejection in *. unfold validate in *.
  destruct (multidict_get (s "file") (files request)) as [file|].
  2:{ split; [right; left; reflexivity|]. split; [split; [discriminate | reflexivity]|].
      intros why E. injection E as <-. auto. }
  destruct (str_eqb (filename file) []).
  { split; [right; left; reflexivity|]. split; [split; [discriminate | reflexivity]|].
    intros why E. injection E as <-. auto. }
  destruct (allowed_file (filename file)); cbn [negb].
  - pose proof (store_status file now io fs) as S.
    split; [tauto|]. split; [|discriminate].
    split; [intros E; destruct S as [S|S]; rewrite S in E; discriminate | congruence].
  - split; [right; left; reflexivity|]. split; [split; [discriminate | reflexivity]|].
    intros why E. injection E as <-. auto.
Qed.

Lemma upload_status_cases_witness :
  rejection (upload_of "malware.exe" kilobyte 1224) = Some DisallowedExtension /\
  fst (upload_file (upload_of "malware.exe" kilobyte 1224) march_first no_faults two_files)
  = two_files.
Proof.
  split; [reflexivity|].
  apply (upload_status_cases (upload_of "malware.exe" kilobyte 1224) march_first
           no_faults two_files) with (why := DisallowedExtension).
  reflexivity.
Defined.

(** ** What an upload changes *)

Lemma store_entries (file : FileStorage) (now : datetime) (io : faults) (fs : filesystem) :
  entries (fst (store file now io fs)) = entries fs \/
  exists written,
    entries (fst (store file now io fs)) =
    <[unique_filename_of (filename file) now :=
        RegularFile (firstn written (stream file)) now]> (entries fs).
Proof.
  unfold store. pose proof (store_path (filename file) now) as P.
  set (path := Posixpath.join UPLOAD_FOLDER (unique_filename_of (filename file) now)) in *.
  unfold Fs.save. destruct (Fs.is_directory fs path); [left; reflexivity|].
  destruct (save_fault_of io) as [[e|written e]|]; cbn [fst]; [left; reflexivity| |].
  - right. exists written. apply (write_entry fs path _ _ now P).
  - right. exists (length (stream file)). rewrite firstn_all.
    destruct (Fs.getsize _ path (getsize_fault io)); apply (write_entry fs path _ _ now P).
Qed.

(** X2: whatever its outcome, an upload touches no entry of the upload
    directory other than the one that bears the derived name. *)
Theorem upload_touches_one_entry (request : Request) (file : FileStorage)
    (now : datetime) (io : faults) (fs : filesystem) (other : str) :
  validate request = Accept file ->
  other <> unique_filename_of (filename file) now ->
  entries (fst (upload_file request now io fs)) !! other = entries fs !! other.
Proof.
  intros V Hne. rewrite upload_file_split, V.
  destruct (store_entries file now io fs) as [->|(written & ->)]; [reflexivity|].
  apply lookup_insert_ne. congruence.
Qed.

Lemma upload_touches_one_entry_witness :
  validate (upload_of "b.txt" [Byte.x43] 201)
    = Accept {| filename := s "b.txt"; stream := [Byte.x43] |} /\
  entries (fst (upload_file (upload_of "b.txt" [Byte.x43] 201) march_first no_faults
                  two_files)) !! s "b.txt"
  = Some (RegularFile kilobyte march_first).
Proof.
  split; [reflexivity|].
  rewrite (upload_touches_one_entry (upload_of "b.txt" [Byte.x43] 201)
             {| filename := s "b.txt"; stream := [Byte.x43] |} march_first no_faults
             two_files (s "b.txt") eq_refl).
  - reflexivity.
  - discriminate.
Defined.

(** ** What list_files reports *)

Lemma entry_of_join_valid (name : str) :
  valid_name name = true -> Fs.entry_of (Posixpath.join UPLOAD_FOLDER name) = Some name.
Proof.
  unfold valid_name. rewrite !andb_true_iff, !negb_true_iff.
  intros [[[N1 Hs] N2] N3]. apply contains_false in Hs.
  assert (Ej : Posixpath.join UPLOAD_FOLDER name = s "uploads/" ++ name).
  { unfold Posixpath.join. destruct name as [|c rest]; [discriminate N1|].
    simpl. destruct (Ascii.eqb c "/") eqn:Ec; [|reflexivity].
    apply Ascii.eqb_eq in Ec. exfalso. apply Hs. left. exact Ec. }
  unfold Fs.entry_of. rewrite Ej. unfold Fs.resolve, Fs.components.
  change (Posixpath.startswith "/" (s "uploads/" ++ name)) with false.
  change (Fs.components_aux [] (s "uploads/" ++ name))
    with (s "uploads" :: Fs.components_aux [] name).
  rewrite (components_aux_no_slash [] name Hs).
  change (rev [] ++ name) with name.
  cbn [Fs.walk]. change (str_eqb (s "uploads") []) with false.
  change (str_eqb (s "uploads") (s ".")) with false.
  change (str_eqb (s "uploads") (s "..")) with false.
  rewrite N1, N2, N3. reflexivity.
Qed.

Lemma pair_of_entry (fs : filesystem) (name : str) (entry : node) :
  well_formed fs -> entries fs !! name = Some entry ->
  pair_of fs name = regular_pair (name, entry).
Proof.
  intros W E. unfold pair_of. rewrite (entry_of_join_valid name (W _ _ E)), E.
  destruct entry; reflexivity.
Qed.

Lemma omap_pair_of_entries (fs : filesystem) (l : list (str * node)) :
  well_formed fs ->
  (forall name entry, In (name, entry) l -> entries fs !! name = Some entry) ->
  omap (pair_of fs) (map fst l) = omap regular_pair l.
Proof.
  intros W. induction l as [|[name entry] l IH]; intros H; [reflexivity|].
  cbn [map fst omap list_omap].
  rewrite (pair_of_entry fs name entry W (H _ _ (or_introl eq_refl))).
  rewrite IH by (intros n e Hin; apply H; right; exact Hin).
  reflexivity.
Qed.

Lemma regular_pair_names (l : list (str * node)) (name : str) :
  In name (map fst (omap regular_pair l)) -> In name (map fst l).
Proof.
  induction l as [|[n [data mtime|sz|sz]] l IH]; cbn; tauto.
Qed.

Lemma regular_pair_NoDup (l : list (str * node)) :
  NoDup (map fst l) -> NoDup (map fst (omap regular_pair l)).
Proof.
  induction l as [|[n entry] l IH]; cbn [map fst]; intros H; [constructor|].
  apply NoDup_cons in H. destruct H as [Hn H].
  destruct entry as [data mtime|sz|sz]; cbn; try (apply IH, H).
  apply NoDup_cons. split; [|apply IH, H].
  intros Hin. apply Hn. apply list_elem_of_In, regular_pair_names, list_elem_of_In, Hin.
Qed.

(** X3: in a directory whose entries bear valid names, [list_files]
    reports each regular file once, with the length of its content, and
    nothing else: sub-directories and special files are left out. *)
Theorem listing_reports_regular_files (fs : filesystem) (listing : list str) :
  well_formed fs -> listdir_result fs listing ->
  let r := snd (list_files listing None fs) in
  Permutation (listed_pairs r) (omap regular_pair (map_to_list (entries fs))) /\
  NoDup (map fst (listed_pairs r)) /\
  forall name sz,
    In (name, sz) (listed_pairs r) <->
    exists data mtime, entries fs !! name = Some (RegularFile data mtime) /\
                       sz = Z.of_nat (length data).
Proof.
  intros W L r. unfold r.
  destruct (list_files_pairs fs listing) as (_ & _ & ->).
  unfold listdir_result in L.
  assert (Permutation (omap (pair_of fs) listing)
            (omap regular_pair (map_to_list (entries fs)))) as P.
  { rewrite <- (omap_pair_of_entries fs (map_to_list (entries fs)) W).
    - apply omap_Permutation. exact L.
    - intros name entry Hin. apply elem_of_map_to_list, list_elem_of_In. exact Hin. }
  split; [exact P|]. split.
  - rewrite (Permutation_map fst P).
    apply regular_pair_NoDup, NoDup_fst_map_to_list.
  - intros name sz. rewrite <- !list_elem_of_In.
    rewrite P, list_elem_of_omap. split.
    + intros ([n entry] & Hin & E). apply elem_of_map_to_list in Hin.
      destruct entry as [data mtime|?|?]; try discriminate.
      injection E as <- <-. eauto.
    + intros (data & mtime & E & ->). exists (name, RegularFile data mtime).
      split; [apply elem_of_map_to_list, E | reflexivity].
Qed.

Lemma two_files_well_formed : well_formed two_files.
Proof.
  intros name entry. unfold two_files. cbn [entries].
  rewrite !lookup_insert. repeat case_decide; subst; try reflexivity.
  rewrite lookup_empty. discriminate.
Qed.

Lemma listing_reports_regular_files_witness :
  (well_formed two_files /\ listdir_result two_files [s "b.txt"; s "a.txt"; s "sub"]) /\
  forall sz, ~ In (s "sub", sz)
               (listed_pairs (snd (list_files [s "b.txt"; s "a.txt"; s "sub"] None two_files))).
Proof.
  assert (listdir_result two_files [s "b.txt"; s "a.txt"; s "sub"]) as L.
  { unfold listdir_result. vm_compute. reflexivity. }
  split; [split; [exact two_files_well_formed | exact L]|].
  intros sz Hin.
  destruct (listing_reports_regular_files two_files [s "b.txt"; s "a.txt"; s "sub"]
              two_files_well_formed L) as (_ & _ & H).
  apply H in Hin. destruct Hin as (data & mtime & E & _).
  vm_compute in E. discriminate E.
Defined.

(** ** Uploads seen through list_files *)





(** ** Name collisions *)






(** ** Failed writes *)



(** ** The stored name of an accepted upload *)

Lemma digit_not_dot (n : Z) : Datetime.digit n <> "."%char.
Proof. unfold Datetime.digit. each_digit n; discriminate. Qed.

Lemma two_digits_no_dot (n : Z) : ~ In "."%char (Datetime.two_digits n).
Proof.
  intros [H|[H|[]]]; exact (digit_not_dot _ H).
Qed.

Lemma decimal_aux_no_dot (fuel : nat) (n : Z) : ~ In "."%char (Datetime.decimal_aux fuel n).
Proof.
  revert n. induction fuel as [|fuel IH]; intros n; simpl; [tauto|].
  destruct (n <? 10).
  - intros [H|[]]. exact (digit_not_dot _ H).
  - intros H. apply in_app_or in H. destruct H as [H|[H|[]]].
    + exact (IH _ H).
    + exact (digit_not_dot _ H).
Qed.

Lemma timestamp_no_dot (now : datetime) :
  ~ In "."%char (Datetime.strftime now (s "%Y%m%d_%H%M%S")).
Proof.
  rewrite timestamp_unfold. unfold Datetime.decimal. intros H.
  repeat (apply in_app_or in H; destruct H as [H|H]);
    try (exact (two_digits_no_dot _ H)); try (exact (decimal_aux_no_dot _ _ H)).
  destruct H as [H|[]]. discriminate H.
Qed.

Lemma letters_no_dot (text : str) :
  Forall (fun c => is_letter c = true) text -> ~ In "."%char text.
Proof.
  intros H Hin. rewrite List.Forall_forall in H. specialize (H _ Hin). discriminate H.
Qed.

(** X8: the stored name of an accepted upload passes [allowed_file]
    itself exactly when sanitizing left a stem in front of the
    extension; otherwise the stored name has no dot at all. *)
Theorem stored_name_allowed_iff_extension_kept (original : str) (now : datetime)
    (stem E : str) :
  allowed_file original = true ->
  Posixpath.splitext (Werkzeug.secure_filename original) = (stem, E) ->
  (allowed_file (unique_filename_of original now) = true <-> E <> []) /\
  (E = [] -> ~ In "."%char (unique_filename_of original now)).
Proof.
  intros A S. rewrite (unique_filename_eq _ now _ _ S).
  destruct (accepted_name_shape original A)
    as (front & ext & _ & Hd & _ & Hin & [S'|(stem' & _ & S')]);
    rewrite S in S'; injection S' as -> ->.
  - assert (~ In "."%char (ext ++ s "_" ++ Datetime.strftime now (s "%Y%m%d_%H%M%S") ++ []))
      as Hno.
    { intros H. apply in_app_or in H. destruct H as [H|H]; [exact (Hd H)|].
      destruct H as [H|H]; [discriminate H|].
      rewrite app_nil_r in H. exact (timestamp_no_dot now H). }
    split; [|intros _; exact Hno]. split; [|congruence].
    intros A'. exfalso. apply allowed_file_spec in A'.
    destruct A' as (st & ex & E' & _). apply Hno. rewrite E'.
    apply in_or_app. right. left. reflexivity.
  - split; [|discriminate]. split; [discriminate|]. intros _.
    apply allowed_file_spec.
    exists (stem' ++ s "_" ++ Datetime.strftime now (s "%Y%m%d_%H%M%S")), ext.
    rewrite <- !app_assoc. auto.
Qed.

Lemma stored_name_allowed_iff_extension_kept_witness :
  (allowed_file (s "..PDF") = true /\
   Posixpath.splitext (Werkzeug.secure_filename (s "..PDF")) = (s "PDF", [])) /\
  ~ In "."%char (unique_filename_of (s "..PDF") march_first).
Proof.
  split; [split; reflexivity|].
  apply (stored_name_allowed_iff_extension_kept (s "..PDF") march_first (s "PDF") []
           eq_refl eq_refl).
  reflexivity.
Defined.

Lemma kept_facts (c : ascii) :
  Werkzeug.filename_ascii_keep c = true ->
  ascii_fold [c] = [c] /\ Py.isspace c = false.
Proof.
  each_char c; vm_compute; intros H; first [discriminate H | split; reflexivity].
Qed.

Lemma ascii_fold_kept (text : str) : kept text -> ascii_fold text = text.
Proof.
  induction 1 as [|c text Hc _ IH]; [reflexivity|].
  change (c :: text) with ([c] ++ text) at 1. rewrite ascii_fold_app, IH.
  destruct (kept_facts c Hc) as [-> _]. reflexivity.
Qed.

(** On a name made of kept characters only the last step of
    [secure_filename] does anything. *)
Lemma secure_filename_of_kept (text : str) :
  kept text -> Werkzeug.secure_filename text = Py.strip (s "._") text.
Proof.
  intros K. rewrite secure_filename_unfold, (ascii_fold_kept text K).
  destruct text as [|c text]; [reflexivity|].
  unfold Py.split_ws. rewrite split_ws_aux_no_space.
  - cbn [rev app Py.join]. f_equal. apply forallb_filter_id, forallb_forall.
    apply List.Forall_forall. exact K.
  - eapply List.Forall_impl; [|exact K]. intros x Hx. apply (kept_facts x Hx).
  - right. discriminate.
Qed.

Lemma lstrip_head (chars text : str) (c : ascii) (rest : str) :
  Py.lstrip chars text = c :: rest -> Py.contains c chars = false.
Proof.
  induction text as [|x text IH]; simpl; [discriminate|].
  destruct (Py.contains x chars) eqn:E; [exact IH|].
  intros H. injection H as <- _. exact E.
Qed.

Lemma lstrip_fixed (chars text : str) :
  match text with [] => True | c :: _ => Py.contains c chars = false end ->
  Py.lstrip chars text = text.
Proof. destruct text as [|c text]; simpl; [reflexivity|]. intros ->. reflexivity. Qed.

Lemma lstrip_idempotent (chars text : str) :
  Py.lstrip chars (Py.lstrip chars text) = Py.lstrip chars text.
Proof.
  apply lstrip_fixed. destruct (Py.lstrip chars text) as [|c rest] eqn:E; [exact I|].
  exact (lstrip_head _ _ _ _ E).
Qed.

Lemma rstrip_prefix (chars text : str) :
  exists back, text = Py.rstrip chars text ++ back.
Proof.
  unfold Py.rstrip. destruct (lstrip_suffix chars (rev text)) as [front E].
  exists (rev front). rewrite <- rev_app_distr, <- E, rev_involutive. reflexivity.
Qed.

(** What [strip] returns neither starts nor ends with a stripped
    character, so stripping again changes nothing. *)
Lemma strip_head (chars text : str) (c : ascii) (rest : str) :
  Py.strip chars text = c :: rest -> Py.contains c chars = false.
Proof.
  unfold Py.strip. intros E.
  destruct (rstrip_prefix chars (Py.lstrip chars text)) as [back P].
  rewrite E in P. exact (lstrip_head _ _ _ _ P).
Qed.

Lemma strip_idempotent (chars text : str) :
  Py.strip chars (Py.strip chars text) = Py.strip chars text.
Proof.
  assert (Py.lstrip chars (Py.strip chars text) = Py.strip chars text) as L.
  { apply lstrip_fixed. destruct (Py.strip chars text) as [|c rest] eqn:E; [exact I|].
    exact (strip_head _ _ _ _ E). }
  unfold Py.strip at 1. rewrite L. unfold Py.strip, Py.rstrip.
  rewrite rev_involutive, lstrip_idempotent. reflexivity.
Qed.

Lemma secure_filename_idempotent (original : str) :
  Werkzeug.secure_filename (Werkzeug.secure_filename original)
  = Werkzeug.secure_filename original.
Proof.
  rewrite (secure_filename_of_kept _ (secure_filename_kept original)).
  rewrite secure_filename_unfold. apply strip_idempotent.
Qed.

(** X9: when sanitizing an accepted name leaves its extension in place,
    the sanitized name passes the checks as well, and a request that
    carries the same content under the sanitized name is treated like
    the original one: the same file is written under the same stored
    name and the same response is returned. *)
Theorem sanitized_name_uploads_alike (request request' : Request)
    (file file' : FileStorage) (stem E : str) (now : datetime) (io : faults)
    (fs : filesystem) :
  validate request = Accept file ->
  multidict_get (s "file") (files request') = Some file' ->
  filename file' = Werkzeug.secure_filename (filename file) ->
  stream file' = stream file ->
  Posixpath.splitext (Werkzeug.secure_filename (filename file)) = (stem, E) ->
  E <> [] ->
  validate request' = Accept file' /\
  upload_file request' now io fs = upload_file request now io fs.
Proof.
  intros V Hfile' En Es S HE. destruct (validate_accept request file V) as [_ A].
  assert (allowed_file (filename file') = true) as A'.
  { destruct (accepted_name_shape (filename file) A)
      as (front & ext & _ & Hd & _ & Hin & [S'|(stem' & _ & S')]);
      rewrite S in S'; injection S' as -> ->; [congruence|].
    rewrite En, (splitext_app _ _ _ S). apply allowed_file_spec.
    exists stem', ext. auto. }
  assert (validate request' = Accept file') as V'.
  { pose proof (validate_cases request') as C.
    rewrite Hfile', (allowed_file_nonempty _ A'), A' in C. exact C. }
  split; [exact V'|]. rewrite !upload_file_split, V, V'.
  unfold store, Fs.save. rewrite Es.
  unfold unique_filename_of. rewrite En, secure_filename_idempotent. reflexivity.
Qed.

Lemma sanitized_name_uploads_alike_witness :
  validate (upload_of "My report.PDF" kilobyte 1224)
    = Accept {| filename := s "My report.PDF"; stream := kilobyte |} /\
  Posixpath.splitext (Werkzeug.secure_filename (s "My report.PDF"))
    = (s "My_report", s ".PDF") /\
  upload_file (upload_of "My_report.PDF" kilobyte 1224) march_first no_faults empty_storage
  = upload_file (upload_of "My report.PDF" kilobyte 1224) march_first no_faults
      empty_storage.
Proof.
  split; [reflexivity|]. split; [reflexivity|].
  apply (sanitized_name_uploads_alike (upload_of "My report.PDF" kilobyte 1224)
           (upload_of "My_report.PDF" kilobyte 1224)
           {| filename := s "My report.PDF"; stream := kilobyte |}
           {| filename := s "My_report.PDF"; stream := kilobyte |}
           (s "My_report") (s ".PDF") march_first no_faults empty_storage
           eq_refl eq_refl eq_refl eq_refl eq_refl).
  discriminate.
Defined.

Lemma sanitized_head (original : str) (c : ascii) (rest : str) :
  Werkzeug.secure_filename original = c :: rest ->
  Werkzeug.filename_ascii_keep c = true /\ Py.contains c (s "._") = false.
Proof.
  intros E. split.
  - pose proof (secure_filename_kept original) as K. rewrite E in K.
    inversion K. assumption.
  - rewrite secure_filename_unfold in E. exact (strip_head _ _ _ _ E).
Qed.

(** X10: the stored name of an accepted upload is made of letters,
    digits, dots, underscores and hyphens only, and starts with a
    letter, a digit or a hyphen: never with a dot or an underscore. *)
Theorem stored_name_is_plain (original : str) (now : datetime) :
  allowed_file original = true ->
  Forall (fun c => Werkzeug.filename_ascii_keep c = true)
    (unique_filename_of original now) /\
  exists c rest,
    unique_filename_of original now = c :: rest /\
    Werkzeug.filename_ascii_keep c = true /\ c <> "."%char /\ c <> "_"%char.
Proof.
  intros A. split; [apply unique_filename_kept|].
  assert (exists stem E,
            Posixpath.splitext (Werkzeug.secure_filename original) = (stem, E) /\
            stem <> []) as (stem & E & S & Hne).
  { destruct (accepted_name_shape original A)
      as (front & ext & _ & _ & Hne & _ & [S|(stem & Hs & S)]); eauto. }
  rewrite (unique_filename_eq _ now _ _ S).
  destruct stem as [|c stem]; [congruence|].
  pose proof (splitext_app _ _ _ S) as P.
  destruct (sanitized_head original c (stem ++ E) P) as [K N].
  exists c, (stem ++ s "_" ++ Datetime.strftime now (s "%Y%m%d_%H%M%S") ++ E).
  split; [reflexivity|]. split; [exact K|].
  split; intros ->; discriminate N.
Qed.

Lemma stored_name_is_plain_witness :
  allowed_file (s "../.hidden file.TXT") = true /\
  exists c rest,
    unique_filename_of (s "../.hidden file.TXT") march_first = c :: rest /\
    Werkzeug.filename_ascii_keep c = true /\ c <> "."%char /\ c <> "_"%char.
Proof.
  split; [reflexivity|].
  apply (stored_name_is_plain (s "../.hidden file.TXT") march_first). reflexivity.
Defined.

(** X11: a name that has only dots and underscores in front of the dot
    of an allowed extension (such as [.txt] or [__.PDF]) is accepted,
    and is stored without dot: as the extension, an underscore and the
    time stamp. *)
Theorem dot_name_stored_without_extension (front ext : str) (now : datetime) :
  Forall (fun c => Py.contains c (s "._") = true) front ->
  In (Py.lower ext) ALLOWED_EXTENSIONS ->
  allowed_file (front ++ "."%char :: ext) = true /\
  Werkzeug.secure_filename (front ++ "."%char :: ext) = ext /\
  unique_filename_of (front ++ "."%char :: ext) now
  = ext ++ s "_" ++ Datetime.strftime now (s "%Y%m%d_%H%M%S").
Proof.
  intros Hf Hin. destruct (lower_allowed_letters ext Hin) as [Hne Hl].
  pose proof (letters_no_dot ext Hl) as Hd.
  assert (allowed_file (front ++ "."%char :: ext) = true) as A.
  { apply allowed_file_spec. exists front, ext. auto. }
  assert (kept (front ++ "."%char :: ext)) as K.
  { apply kept_app.
    - eapply List.Forall_impl; [|exact Hf]. intros c Hc.
      apply contains_In in Hc. destruct Hc as [<-|[<-|[]]]; reflexivity.
    - constructor; [reflexivity|]. eapply List.Forall_impl; [|exact Hl].
      intros c Hc. apply (letter_facts c Hc). }
  assert (Werkzeug.secure_filename (front ++ "."%char :: ext) = ext) as E.
  { rewrite (secure_filename_of_kept _ K).
    destruct (strip_before_extension front ext Hne Hl)
      as [H|(c & stem' & skipped & Hc & Ef & _)]; [exact H|].
    exfalso. rewrite List.Forall_forall in Hf.
    assert (Py.contains c (s "._") = true) as Hc'.
    { apply Hf. rewrite Ef. apply in_or_app. right. left. reflexivity. }
    congruence. }
  split; [exact A|]. split; [exact E|].
  unfold unique_filename_of. rewrite E, (splitext_no_dot ext Hd), app_nil_r.
  reflexivity.
Qed.

Lemma dot_name_stored_without_extension_witness :
  (Forall (fun c => Py.contains c (s "._") = true) (s "_.") /\
   In (Py.lower (s "Pdf")) ALLOWED_EXTENSIONS) /\
  unique_filename_of (s "_..Pdf") march_first = s "Pdf_20240301_100000".
Proof.
  assert (Forall (fun c => Py.contains c (s "._") = true) (s "_.")) as Hf.
  { repeat constructor. }
  assert (In (Py.lower (s "Pdf")) ALLOWED_EXTENSIONS) as Hin.
  { right. left. reflexivity. }
  split; [split; assumption|].
  apply (dot_name_stored_without_extension (s "_.") (s "Pdf") march_first Hf Hin).
Defined.

(** ** Order of the time stamps *)

Lemma ord_digit (n : Z) : ord (Datetime.digit n) = 48 + n mod 10.
Proof.
  unfold Datetime.digit. pose proof (Z.mod_pos_bound n 10 eq_refl).
  apply ord_chr. lia.
Qed.

Lemma ord_inj (x y : ascii) : ord x = ord y -> x = y.
Proof.
  unfold ord. intros E. apply N2Z.inj in E.
  rewrite <- (ascii_N_embedding x), <- (ascii_N_embedding y), E. reflexivity.
Qed.

Lemma str_ltb_irrefl (a : str) : str_ltb a a = false.
Proof.
  induction a as [|x a IH]; [reflexivity|]. cbn [str_ltb].
  rewrite Z.ltb_irrefl, Z.eqb_refl, IH. reflexivity.
Qed.

(** Comparing two strings that begin with pieces of the same length. *)
Lemma str_ltb_app (p q r t : str) :
  length p = length q ->
  str_ltb (p ++ r) (q ++ t) = str_ltb p q || (str_eqb p q && str_ltb r t).
Proof.
  revert q. induction p as [|x p IH]; intros [|y q] L; try discriminate L.
  - simpl. destruct (str_ltb r t); reflexivity.
  - injection L as L. cbn [app str_ltb str_eqb]. rewrite (IH q L).
    destruct (Z.ltb_spec (ord x) (ord y)); [reflexivity|].
    destruct (Z.eqb_spec (ord x) (ord y)) as [E|E].
    + apply ord_inj in E. subst y.
      rewrite Ascii.eqb_refl. destruct (str_ltb p q); reflexivity.
    + destruct (Ascii.eqb_spec x y) as [->|]; [congruence|].
      destruct (str_ltb p q); reflexivity.
Qed.

Lemma two_digits_order (x y : Z) :
  0 <= x <= 99 -> 0 <= y <= 99 ->
  (str_ltb (Datetime.two_digits x) (Datetime.two_digits y) = true <-> x < y) /\
  (str_eqb (Datetime.two_digits x) (Datetime.two_digits y) = true <-> x = y).
Proof.
  intros Hx Hy. unfold Datetime.two_digits. split.
  - cbn [str_ltb]. rewrite !ord_digit.
    rewrite !orb_true_iff, !andb_true_iff, !Z.ltb_lt, !Z.eqb_eq.
    Z.div_mod_to_equations. lia.
  - rewrite str_eqb_eq. split; [|intros ->; reflexivity].
    intros E. injection E as E1 E2. apply digit_inj in E1, E2.
    Z.div_mod_to_equations. lia.
Qed.

Lemma four_digits_order (x y : Z) :
  1000 <= x <= 9999 -> 1000 <= y <= 9999 ->
  (str_ltb (Datetime.decimal x) (Datetime.decimal y) = true <-> x < y) /\
  (str_eqb (Datetime.decimal x) (Datetime.decimal y) = true <-> x = y).
Proof.
  intros Hx Hy. rewrite !decimal_four_digits by assumption. split.
  - cbn [str_ltb]. rewrite !ord_digit.
    rewrite !orb_true_iff, !andb_true_iff, !Z.ltb_lt, !Z.eqb_eq.
    Z.div_mod_to_equations. lia.
  - rewrite str_eqb_eq. split; [|intros ->; reflexivity].
    intros E. injection E as E1 E2 E3 E4. apply digit_inj in E1, E2, E3, E4.
    Z.div_mod_to_equations. lia.
Qed.

Lemma timestamp_order (a b : datetime) :
  clock_value a -> clock_value b ->
  (str_ltb (Datetime.strftime a (s "%Y%m%d_%H%M%S"))
           (Datetime.strftime b (s "%Y%m%d_%H%M%S")) = true <-> earlier a b).
Proof.
  intros [Va Ya] [Vb Yb]. unfold Datetime.valid in Va, Vb.
  destruct (four_digits_order (year a) (year b)) as [Ly Ey]; try lia.
  destruct (two_digits_order (month a) (month b)) as [Lm Em]; try lia.
  destruct (two_digits_order (day a) (day b)) as [Ld Ed]; try lia.
  destruct (two_digits_order (hour a) (hour b)) as [LH EH]; try lia.
  destruct (two_digits_order (minute a) (minute b)) as [LM EM]; try lia.
  destruct (two_digits_order (second a) (second b)) as [LS _]; try lia.
  rewrite !timestamp_unfold.
  rewrite (str_ltb_app (Datetime.decimal (year a)) (Datetime.decimal (year b)))
    by (rewrite !decimal_four_digits by lia; reflexivity).
  rewrite !str_ltb_app by reflexivity.
  change (str_ltb (s "_") (s "_")) with false.
  change (str_eqb (s "_") (s "_")) with true. cbn [orb andb].
  repeat (rewrite orb_true_iff || rewrite andb_true_iff).
  rewrite Ly, Ey, Lm, Em, Ld, Ed, LH, EH, LM, EM, LS. reflexivity.
Qed.

(** X12: the time stamps are ordered as strings the way their times are
    ordered, and so are the stored names of two uploads of the same
    original name: the file uploaded in the earlier second sorts first. *)
Theorem stored_names_sort_by_time (original : str) (a b : datetime) :
  clock_value a -> clock_value b ->
  (str_ltb (Datetime.strftime a (s "%Y%m%d_%H%M%S"))
           (Datetime.strftime b (s "%Y%m%d_%H%M%S")) = true <-> earlier a b) /\
  (str_ltb (unique_filename_of original a) (unique_filename_of original b) = true
   <-> earlier a b).
Proof.
  intros Ca Cb. pose proof (timestamp_order a b Ca Cb) as T.
  split; [exact T|]. rewrite <- T. unfold unique_filename_of.
  destruct (Posixpath.splitext (Werkzeug.secure_filename original)) as [stem ext].
  assert (forall d, clock_value d ->
            length (Datetime.strftime d (s "%Y%m%d_%H%M%S")) = 15%nat) as L.
  { intros d [V Y]. unfold Datetime.valid in V.
    rewrite timestamp_shape by lia. reflexivity. }
  rewrite !(app_assoc stem).
  rewrite str_ltb_app by reflexivity.
  rewrite str_ltb_irrefl, str_eqb_refl. cbn [orb andb].
  rewrite str_ltb_app by (rewrite !L by assumption; reflexivity).
  rewrite str_ltb_irrefl, andb_false_r, orb_false_r. reflexivity.
Qed.

Lemma stored_names_sort_by_time_witness :
  (clock_value march_first /\ clock_value a_second_later) /\
  (str_ltb (unique_filename_of (s "a.txt") march_first)
           (unique_filename_of (s "a.txt") a_second_later) = true
   <-> earlier march_first a_second_later).
Proof.
  assert (clock_value march_first) as C1.
  { unfold clock_value, Datetime.valid. simpl. lia. }
  assert (clock_value a_second_later) as C2.
  { unfold clock_value, Datetime.valid. simpl. lia. }
  split; [auto|].
  apply (stored_names_sort_by_time (s "a.txt") march_first a_second_later C1 C2).
Defined.

(** ** The client against the server *)




(** The entries [list_files] builds have the three fields the client reads. *)
Lemma list_files_loop_items (fs : filesystem) (listing : list str) :
  exists items,
    list_files_loop fs listing = Return items /\
    Forall (fun item => exists name sz modified,
              item = JObject [("name"%string, JStr name); ("size"%string, JInt sz);
                              ("modified"%string, JStr modified)]) items.
Proof.
  induction listing as [|filename rest (items & IH & IHs)].
  - exists []. split; [reflexivity | constructor].
  - cbn [list_files_loop]. unfold Fs.isfile, Fs.getsize, Fs.getmtime.
    destruct (Fs.entry_of (Posixpath.join UPLOAD_FOLDER filename)) as [name|]; [|eauto].
    destruct (entries fs !! name) as [[data mtime|sz|sz]|]; eauto.
    rewrite IH. eexists. split; [reflexivity|]. constructor; eauto.
Qed.

Lemma print_files_items (server_url : str) (items : list json) :
  Forall (fun item => exists name sz modified,
            item = JObject [("name"%string, JStr name); ("size"%string, JInt sz);
                            ("modified"%string, JStr modified)]) items ->
  snd (Client.print_files server_url items) = true /\
  Client.shown_pairs (fst (Client.print_files server_url items)) = omap name_size items.
Proof.
  induction 1 as [|item items (name & sz & modified & ->) _ [IHo IHp]].
  - split; reflexivity.
  - cbn [Client.print_files Client.getitem assoc String.eqb Ascii.eqb Bool.eqb].
    destruct (Client.print_files server_url items) as [lines ok].
    cbn in IHo, IHp |- *. subst ok. rewrite IHp. split; reflexivity.
Qed.

(** X14: the client's [list_files] succeeds on the server's listing
    exactly when the server could read the directory, and then the
    names and sizes it prints are those the server reports, in the same
    order; for an empty listing it prints that no files were found. *)
Theorem client_listing_shows_server_pairs (listing : list str) (fault : option str)
    (fs : filesystem) (server_url : str) :
  let r := snd (list_files listing fault fs) in
  let out := Client.list_files server_url (Client.Responded r) in
  (snd out = true <-> fault = None) /\
  (fault = None -> Client.shown_pairs (fst out) = listed_pairs r) /\
  (fault = None -> listed_pairs r = [] ->
   fst out = [Client.FetchingFileList server_url; Client.NoFilesFound]) /\
  (fault <> None ->
   fst out = [Client.FetchingFileList server_url; Client.FailedToListFiles]).
Proof.
  intros r out. unfold out, r, list_files. destruct fault as [e|].
  - split; [split; discriminate|]. split; [discriminate|]. split; [discriminate|].
    intros _. reflexivity.
  - destruct (list_files_loop_items fs listing) as (items & -> & Hs).
    destruct (print_files_items server_url items Hs) as [Ho Hp].
    cbn [snd status_of]. unfold Client.list_files.
    cbn [status_of Z.eqb Pos.eqb Client.json_of Client.get assoc String.eqb Ascii.eqb
         Bool.eqb].
    unfold listed_pairs. cbn [field assoc String.eqb Ascii.eqb Bool.eqb].
    destruct items as [|item items].
    + repeat split; congruence.
    + destruct (Client.print_files server_url (item :: items)) as [lines ok].
      cbn [fst snd] in *. subst ok.
      split; [split; reflexivity|]. split; [intros _; exact Hp|].
      split; [|congruence]. intros _ E. exfalso.
      apply List.Forall_inv in Hs. destruct Hs as (name & sz & modified & ->). refute E.
Qed.

Lemma client_listing_shows_server_pairs_witness :
  Client.shown_pairs
    (fst (Client.list_files (s "http://pi:5000")
            (Client.Responded
               (snd (list_files [s "sub"; s "a.txt"; s "b.txt"] None two_files)))))
  = [(s "a.txt", 2); (s "b.txt", 1024)].
Proof.
  destruct (client_listing_shows_server_pairs [s "sub"; s "a.txt"; s "b.txt"] None
              two_files (s "http://pi:5000")) as (_ & E & _).
  rewrite (E eq_refl). vm_compute. reflexivity.
Defined.

(** X15: whatever the time, the client's [check_health] accepts the
    answer of the server's [health_check] and prints its status
    [healthy] and its upload folder; it reports a healthy server only
    for an answer with status 200 that is a JSON object with the fields
    [status] and [upload_folder]. *)
Theorem client_health_check (now : datetime) (server_url : str) (fetched : Client.reply) :
  Client.check_health server_url (Client.Responded (health_check now))
  = ([Client.ServerIs (JStr (s "healthy")); Client.UploadFolderIs (JStr UPLOAD_FOLDER)],
     true) /\
  (snd (Client.check_health server_url fetched) = true ->
   exists r status folder,
     fetched = Client.Responded r /\ status_of r = 200 /\
     field "status" r = Some status /\ field "upload_folder" r = Some folder /\
     fst (Client.check_health server_url fetched)
     = [Client.ServerIs status; Client.UploadFolderIs folder]).
Proof.
  split; [reflexivity|]. unfold Client.check_health.
  destruct fetched as [r|e]; [|intros H; discriminate H].
  destruct (Z.eqb_spec (status_of r) 200) as [St|St]; [|intros H; discriminate H].
  destruct r as [body status|code]; [|intros H; discriminate H].
  destruct body as [b|n|text|items|fields]; try (intros H; discriminate H).
  cbn [Client.json_of Client.getitem field].
  destruct (assoc "status" fields) as [status'|] eqn:Es; [|intros H; discriminate H].
  destruct (assoc "upload_folder" fields) as [folder|] eqn:Ef;
    [|intros H; discriminate H].
  intros _. exists (Jsonify (JObject fields) status), status', folder.
  repeat split; assumption.
Qed.

Lemma client_health_check_witness :
  snd (Client.check_health (s "http://pi:5000")
         (Client.Responded (health_check march_first))) = true /\
  exists r status folder,
    Client.Responded (health_check march_first) = Client.Responded r /\
    status_of r = 200 /\
    field "status" r = Some status /\ field "upload_folder" r = Some folder /\
    fst (Client.check_health (s "http://pi:5000")
           (Client.Responded (health_check march_first)))
    = [Client.ServerIs status; Client.UploadFolderIs folder].
Proof.
  split; [reflexivity|].
  apply (client_health_check march_first (s "http://pi:5000")
           (Client.Responded (health_check march_first))).
  reflexivity.
Defined.

(** ** The command line of the client *)

(** X16: [main] makes a request, and then ends with exit status 0
    whatever the request gives, exactly when the command word, in any
    letter case, is [upload] followed by two arguments or [list] or
    [health] followed by one; otherwise it ends with exit status 1.
    In particular a failed upload still ends with exit status 0. *)
Theorem main_exit_status (argv : list str) (w : Client.world) :
  (snd (Client.main argv w) = 0 \/ snd (Client.main argv w) = 1) /\
  (snd (Client.main argv w) = 0 <->
   exists program word args,
     argv = program :: word :: args /\
     (Py.lower word = s "upload" /\ length args = 2%nat \/
      Py.lower word = s "list" /\ length args = 1%nat \/
      Py.lower word = s "health" /\ length args = 1%nat)) /\
  (forall program word server_url file_path,
     Py.lower word = s "upload" ->
     Client.main [program; word; server_url; file_path] w
     = (fst (Client.upload_file server_url file_path (Client.file_exists w)
               (Client.open_error w) (Client.answer w)), 0)).
Proof.
  split; [|split].
  - unfold Client.main. destruct argv as [|program [|word args]]; [right; reflexivity..|].
    destruct (str_eqb (Py.lower word) (s "upload")).
    { destruct args as [|a [|b [|c args]]]; auto. }
    destruct (str_eqb (Py.lower word) (s "list")).
    { destruct args as [|a [|b args]]; auto. }
    destruct (str_eqb (Py.lower word) (s "health")).
    { destruct args as [|a [|b args]]; auto. }
    right. reflexivity.
  - unfold Client.main. destruct argv as [|program [|word args]].
    + split; [discriminate|]. intros (p & x & a & E & _). discriminate E.
    + split; [discriminate|]. intros (p & x & a & E & _). discriminate E.
    + destruct (str_eqb (Py.lower word) (s "upload")) eqn:U.
      { apply str_eqb_eq in U.
        destruct args as [|a [|b [|c args]]]; cbn [snd]; split;
          first [ discriminate
                | intros _; reflexivity
                | intros _; exists program, word; eauto 8
                | intros (p & x & r & E & H); injection E as <- <- <-; rewrite U in H;
                  destruct H as [[_ H]|[[H _]|[H _]]]; refute H ]. }
      destruct (str_eqb (Py.lower word) (s "list")) eqn:L.
      { apply str_eqb_eq in L.
        destruct args as [|a [|b args]]; cbn [snd]; split;
          first [ discriminate
                | intros _; reflexivity
                | intros _; exists program, word; eauto 8
                | intros (p & x & r & E & H); injection E as <- <- <-; rewrite L in H;
                  destruct H as [[H _]|[[_ H]|[H _]]]; refute H ]. }
      destruct (str_eqb (Py.lower word) (s "health")) eqn:Hh.
      { apply str_eqb_eq in Hh.
        destruct args as [|a [|b args]]; cbn [snd]; split;
          first [ discriminate
                | intros _; reflexivity
                | intros _; exists program, word; eauto 8
                | intros (p & x & r & E & H); injection E as <- <- <-; rewrite Hh in H;
                  destruct H as [[H _]|[[H _]|[_ H]]]; refute H ]. }
      apply str_eqb_neq in U, L, Hh. cbn [snd]. split; [discriminate|].
      intros (p & x & r & E & H). injection E as <- <- <-.
      destruct H as [[H _]|[[H _]|[H _]]]; contradiction.
  - intros program word server_url file_path E. unfold Client.main.
    rewrite E. reflexivity.
Qed.

Lemma main_exit_status_witness :
  Py.lower (s "UpLoad") = s "upload" /\
  Client.main [s "client_example.py"; s "UpLoad"; s "http://pi:5000"; s "missing.txt"]
    {| Client.file_exists := false; Client.open_error := None;
       Client.answer := Client.Raised Client.ConnectionError |}
  = ([Client.FileDoesNotExist (s "missing.txt")], 0).
Proof.
  split; [reflexivity|].
  apply (main_exit_status [] {| Client.file_exists := false; Client.open_error := None;
                                Client.answer := Client.Raised Client.ConnectionError |}).
  reflexivity.
Defined.
